(** * gbstats: frequentist tests and the sample-ratio-mismatch check

    A shallow embedding of [gbstats/utils.py] and
    [gbstats/frequentist/tests.py].

    Numbers.  Python floats are modelled by the real numbers [R]: rounding,
    overflow and underflow are left out.  Python integers are [Z].

    Failure.  Python's own arithmetic raises: [x / 0] is a
    [ZeroDivisionError], [l[i]] past the end is an [IndexError].  numpy's
    arithmetic does not raise: [np.sqrt] of a negative number, [np.log] of a
    non-positive number and a numpy division by zero yield [nan] or an
    infinity.  [R] has no such values, so a run that meets one ends in
    [Nonfinite]: from there on the model does not follow the source.
    [Ok v] and [Raise e] are exact: the source returns [v], or raises [e]. *)

From Stdlib Require Import Reals Lra Lia ZArith List String Bool.
Import ListNotations.
Open Scope R_scope.

(** ** Outcomes of a run *)

Inductive exn : Type :=
| ZeroDivisionError
| IndexError.

Inductive outcome (A : Type) : Type :=
| Ok (a : A)
| Raise (e : exn)
| Nonfinite.

Arguments Ok {A} a.
Arguments Raise {A} e.
Arguments Nonfinite {A}.

Definition bind {A B : Type} (c : outcome A) (k : A -> outcome B) : outcome B :=
  match c with
  | Ok a => k a
  | Raise e => Raise e
  | Nonfinite => Nonfinite
  end.

Declare Scope outcome_scope.
Delimit Scope outcome_scope with outcome.
Notation "x <- c ;; k" := (bind c (fun x => k))
  (at level 61, c at next level, right associativity) : outcome_scope.
Open Scope outcome_scope.

(** ** Comparisons on floats, as booleans *)

Definition Reqb (x y : R) : bool := if Req_dec_T x y then true else false.
Definition Rleb (x y : R) : bool := if Rle_dec x y then true else false.
Definition Rltb (x y : R) : bool := if Rlt_dec x y then true else false.

(** ** Division *)

(** Python's [x / y] on floats and ints. *)
Definition py_div (x y : R) : outcome R :=
  if Reqb y 0 then Raise ZeroDivisionError else Ok (x / y).

(** numpy's [x / y], when one operand is a [np.float64]. *)
Definition np_div (x y : R) : outcome R :=
  if Reqb y 0 then Nonfinite else Ok (x / y).

(** [np.sqrt(x)]: [nan] below zero. *)
Definition np_sqrt (x : R) : outcome R :=
  if Rleb 0 x then Ok (sqrt x) else Nonfinite.

(** [np.log(x)]: [-inf] at zero, [nan] below. *)
Definition np_log (x : R) : outcome R :=
  if Rltb 0 x then Ok (ln x) else Nonfinite.

(** [l[i]] for an index that [enumerate] produced (never negative). *)
Definition py_index {A : Type} (l : list A) (i : nat) : outcome A :=
  match nth_error l i with
  | Some a => Ok a
  | None => Raise IndexError
  end.

(** Python's [sum] over ints and over floats. *)
Definition sum_int (l : list Z) : Z := fold_left Z.add l 0%Z.
Definition sum_float (l : list R) : R := fold_left Rplus l 0.

(** Python's two-argument [min(a, b)]: [b] when [b < a], else [a]. *)
Definition py_min (a b : R) : R := if Rltb b a then b else a.

(** ** utils.py *)

(** [variance_of_ratios(mean_m, var_m, mean_d, var_d, cov_m_d)] *)
Definition variance_of_ratios (mean_m var_m mean_d var_d cov_m_d : R)
  : outcome R :=
  t1 <- py_div var_m (mean_d ^ 2) ;;
  t2 <- py_div (var_d * mean_m ^ 2) (mean_d ^ 4) ;;
  t3 <- py_div (2 * cov_m_d * mean_m) (mean_d ^ 3) ;;
  Ok (t1 + t2 - t3).

(** scipy's distribution functions are not part of the package: they are
    taken as given.  [t_cdf x dof] is [t.cdf(x, dof)], [t_ppf q dof] is
    [t.ppf(q, dof)], [chi2_sf x k] is [chi2.sf(x, k)]. *)
Class Scipy : Type := {
  t_cdf : R -> R -> R;
  t_ppf : R -> R -> R;
  chi2_sf : R -> Z -> R
}.

(** The body of the [for i, o in enumerate(users)] loop of [check_srm],
    from index [i] on, with [x] the statistic so far. *)
Fixpoint check_srm_loop (weights : list R) (total_weight : R)
  (total_observed : Z) (i : nat) (users : list Z) (x : R) : outcome R :=
  match users with
  | [] => Ok x
  | o :: rest =>
      w <- py_index weights i ;;
      if Rleb w 0 then
        check_srm_loop weights total_weight total_observed (S i) rest x
      else
        q <- py_div w total_weight ;;
        let e := q * IZR total_observed in
        c <- py_div ((IZR o - e) ^ 2) e ;;
        check_srm_loop weights total_weight total_observed (S i) rest (x + c)
  end.

(** [check_srm(users, weights)] *)
Definition check_srm `{Scipy} (users : list Z) (weights : list R)
  : outcome R :=
  let total_observed := sum_int users in
  if (total_observed =? 0)%Z then Ok 1
  else
    let total_weight := sum_float weights in
    x <- check_srm_loop weights total_weight total_observed 0 users 0 ;;
    Ok (chi2_sf x (Z.of_nat (List.length users) - 1)).

(** ** What tests.py imports from the rest of the package *)

(** Modelled from the spec: [gbstats.messages] is not among the sources.  The
    spec names three diagnostics, "baseline is zero", "zero/negative
    variance" and "zero scaled variation"; they are kept apart here. *)
Definition BASELINE_VARIATION_ZERO_MESSAGE : string := "baseline is zero".
Definition ZERO_NEGATIVE_VARIANCE_MESSAGE : string := "zero/negative variance".
Definition ZERO_SCALED_VARIATION_MESSAGE : string := "zero scaled variation".

(** Modelled from the spec: [gbstats.models.statistics.TestStatistic] is not
    among the sources.  The spec's PerArmStatistic has a mean, an unadjusted
    mean, a variance and an integer sample count. *)
Module TestStatistic.
Record t : Type := Build {
  mean : R;
  unadjusted_mean : R;
  variance : R;
  n : Z
}.
End TestStatistic.

(** Modelled from the spec: [gbstats.models.tests] is not among the sources.
    [difference_type] is one of absolute, relative and scaled; a result
    carries a point estimate, a two-element interval and an uplift
    descriptor. *)
Inductive DifferenceType : Type := Absolute | Relative | Scaled.

Definition DifferenceType_eqb (a b : DifferenceType) : bool :=
  match a, b with
  | Absolute, Absolute | Relative, Relative | Scaled, Scaled => true
  | _, _ => false
  end.

Module Uplift.
Record t : Type := Build {
  dist : string;
  mean : R;
  stddev : R
}.
End Uplift.

(** An interval end: a float, the [np.inf] / [-np.inf] that the one-sided
    tests put there, or the [nan] that scaling an infinity by zero gives. *)
Inductive ext : Type :=
| Fin (r : R)
| PosInf
| NegInf
| NaN.

(** [b * k] for an interval end [b] and a float [k]. *)
Definition ext_mul (b : ext) (k : R) : ext :=
  match b with
  | Fin r => Fin (r * k)
  | PosInf => if Rltb 0 k then PosInf else if Rltb k 0 then NegInf else NaN
  | NegInf => if Rltb 0 k then NegInf else if Rltb k 0 then PosInf else NaN
  | NaN => NaN
  end.

(** ** tests.py: configurations and results *)

Module FrequentistConfig.
Record t : Type := Build {
  difference_type : DifferenceType;
  traffic_proportion_b : R;
  phase_length_days : R;
  alpha : R;
  test_value : R
}.
End FrequentistConfig.

Module SequentialConfig.
Record t : Type := Build {
  difference_type : DifferenceType;
  traffic_proportion_b : R;
  phase_length_days : R;
  alpha : R;
  test_value : R;
  sequential_tuning_parameter : R
}.
End SequentialConfig.

Module FrequentistTestResult.
Record t : Type := Build {
  expected : R;
  ci : ext * ext;
  uplift : Uplift.t;
  p_value : R;
  error_message : option string
}.
End FrequentistTestResult.

(** ** tests.py: the two helpers *)

(** Python's [not x] for an optional float: [None] and zero are falsy. *)
Definition py_not (x : option R) : bool :=
  match x with
  | None => true
  | Some v => Reqb v 0
  end.

(** [frequentist_diff(mean_a, mean_b, relative, mean_a_unadjusted=None)] *)
Definition frequentist_diff (mean_a mean_b : R) (relative : bool)
  (mean_a_unadjusted : option R) : outcome R :=
  let mean_a_unadjusted :=
    if py_not mean_a_unadjusted then mean_a
    else match mean_a_unadjusted with Some v => v | None => mean_a end in
  if relative then py_div (mean_b - mean_a) mean_a_unadjusted
  else Ok (mean_b - mean_a).

(** [frequentist_variance(var_a, mean_a, n_a, var_b, mean_b, n_b, relative)] *)
Definition frequentist_variance (var_a mean_a : R) (n_a : Z)
  (var_b mean_b : R) (n_b : Z) (relative : bool) : outcome R :=
  if relative then
    vb <- py_div var_b (IZR n_b) ;;
    va <- py_div var_a (IZR n_a) ;;
    variance_of_ratios mean_b vb mean_a va 0
  else
    vb <- py_div var_b (IZR n_b) ;;
    va <- py_div var_a (IZR n_a) ;;
    Ok (vb + va).

(** ** tests.py: [TTest] and its four subclasses *)

(** The subclass an instance belongs to; the sequential test keeps its
    tuning parameter as an attribute. *)
Inductive variant : Type :=
| TwoSided
| OneSidedTreatmentGreater
| OneSidedTreatmentLesser
| SequentialTwoSided (sequential_tuning_parameter : R).

Module TTest.

Record t : Type := Build {
  stat_a : TestStatistic.t;
  stat_b : TestStatistic.t;
  alpha : R;
  test_value : R;
  relative : bool;
  scaled : bool;
  traffic_proportion_b : R;
  phase_length_days : R;
  kind : variant
}.

(** [TTest.__init__(stat_a, stat_b, config)], for the subclass [k]. *)
Definition init (k : variant) (stat_a stat_b : TestStatistic.t)
  (config : FrequentistConfig.t) : t :=
  Build stat_a stat_b
    (FrequentistConfig.alpha config)
    (FrequentistConfig.test_value config)
    (DifferenceType_eqb (FrequentistConfig.difference_type config) Relative)
    (DifferenceType_eqb (FrequentistConfig.difference_type config) Scaled)
    (FrequentistConfig.traffic_proportion_b config)
    (FrequentistConfig.phase_length_days config)
    k.

(** The [variance] property. *)
Definition variance (self : t) : outcome R :=
  frequentist_variance
    (TestStatistic.variance (stat_a self))
    (TestStatistic.unadjusted_mean (stat_a self))
    (TestStatistic.n (stat_a self))
    (TestStatistic.variance (stat_b self))
    (TestStatistic.unadjusted_mean (stat_b self))
    (TestStatistic.n (stat_b self))
    (relative self).

(** The [point_estimate] property. *)
Definition point_estimate (self : t) : outcome R :=
  frequentist_diff
    (TestStatistic.mean (stat_a self))
    (TestStatistic.mean (stat_b self))
    (relative self)
    (Some (TestStatistic.unadjusted_mean (stat_a self))).

(** The [critical_value] property. *)
Definition critical_value (self : t) : outcome R :=
  pe <- point_estimate self ;;
  v <- variance self ;;
  s <- np_sqrt v ;;
  np_div (pe - test_value self) s.

(** The [dof] property (Welch-Satterthwaite). *)
Definition dof (self : t) : outcome R :=
  let var_a := TestStatistic.variance (stat_a self) in
  let var_b := TestStatistic.variance (stat_b self) in
  let n_a := TestStatistic.n (stat_a self) in
  let n_b := TestStatistic.n (stat_b self) in
  qb <- py_div var_b (IZR n_b) ;;
  qa <- py_div var_a (IZR n_a) ;;
  db <- py_div (var_b ^ 2) (IZR (n_b ^ 2 * (n_b - 1))) ;;
  da <- py_div (var_a ^ 2) (IZR (n_a ^ 2 * (n_a - 1))) ;;
  py_div ((qb + qa) ^ 2) (db + da).

(** The [rho] property of [SequentialTwoSidedTTest]. *)
Definition rho (self : t) (sequential_tuning_parameter : R) : outcome R :=
  l1 <- np_log (alpha self) ;;
  l2 <- np_log (alpha self) ;;
  l3 <- np_log (-2 * l2 + 1) ;;
  q <- np_div (-2 * l1 + l3) sequential_tuning_parameter ;;
  np_sqrt q.

(** The [p_value] property, by subclass. *)
Definition p_value `{Scipy} (self : t) : outcome R :=
  match kind self with
  | TwoSided =>
      c <- critical_value self ;;
      d <- dof self ;;
      Ok (2 * (1 - t_cdf (Rabs c) d))
  | OneSidedTreatmentGreater =>
      c <- critical_value self ;;
      d <- dof self ;;
      Ok (1 - t_cdf c d)
  | OneSidedTreatmentLesser =>
      c <- critical_value self ;;
      d <- dof self ;;
      Ok (t_cdf c d)
  | SequentialTwoSided tuning =>
      let N := (TestStatistic.n (stat_a self) + TestStatistic.n (stat_b self))%Z in
      pe <- point_estimate self ;;
      v <- variance self ;;
      st2 <- np_div ((pe - test_value self) ^ 2 * IZR N) v ;;
      r <- rho self tuning ;;
      let tr2p1 := IZR N * r ^ 2 + 1 in
      r' <- rho self tuning ;;
      e <- np_div (r' ^ 2 * st2) (2 * tr2p1) ;;
      s <- np_sqrt tr2p1 ;;
      evalue <- np_div (exp e) s ;;
      q <- np_div 1 evalue ;;
      Ok (py_min q 1)
  end.

(** The [confidence_interval] property, by subclass. *)
Definition confidence_interval `{Scipy} (self : t) : outcome (ext * ext) :=
  match kind self with
  | TwoSided =>
      d <- dof self ;;
      v <- variance self ;;
      s <- np_sqrt v ;;
      let width := t_ppf (1 - alpha self / 2) d * s in
      pe <- point_estimate self ;;
      Ok (Fin (pe - width), Fin (pe + width))
  | OneSidedTreatmentGreater =>
      d <- dof self ;;
      v <- variance self ;;
      s <- np_sqrt v ;;
      let width := t_ppf (1 - alpha self) d * s in
      pe <- point_estimate self ;;
      Ok (Fin (pe - width), PosInf)
  | OneSidedTreatmentLesser =>
      d <- dof self ;;
      v <- variance self ;;
      s <- np_sqrt v ;;
      let width := t_ppf (1 - alpha self) d * s in
      pe <- point_estimate self ;;
      Ok (NegInf, Fin (pe - width))
  | SequentialTwoSided tuning =>
      let N := (TestStatistic.n (stat_a self) + TestStatistic.n (stat_b self))%Z in
      r <- rho self tuning ;;
      v <- variance self ;;
      let s2 := v * IZR N in
      s <- np_sqrt s2 ;;
      m <- np_sqrt (IZR N * r ^ 2 + 1) ;;
      q <- np_div m (alpha self) ;;
      l <- np_log q ;;
      f <- np_div (2 * (IZR N * r ^ 2 + 1) * l) ((IZR N * r) ^ 2) ;;
      w <- np_sqrt f ;;
      let width := s * w in
      pe <- point_estimate self ;;
      Ok (Fin (pe - width), Fin (pe + width))
  end.

(** Modelled from the spec: [BaseABTest._has_zero_variance] is not among the
    sources.  The spec's second step of [computeResult] fires when the
    variance is zero or negative for either arm. *)
Definition _has_zero_variance (self : t) : bool :=
  Rleb (TestStatistic.variance (stat_a self)) 0
  || Rleb (TestStatistic.variance (stat_b self)) 0.

(** [_default_output(error_message)] *)
Definition _default_output (error_message : option string)
  : FrequentistTestResult.t :=
  {| FrequentistTestResult.expected := 0;
     FrequentistTestResult.ci := (Fin 0, Fin 0);
     FrequentistTestResult.p_value := 1;
     FrequentistTestResult.uplift :=
       {| Uplift.dist := "normal"; Uplift.mean := 0; Uplift.stddev := 0 |};
     FrequentistTestResult.error_message := error_message |}.

(** [scale_result(result, p, d)] *)
Definition scale_result (self : t) (result : FrequentistTestResult.t)
  (p d : R) : outcome FrequentistTestResult.t :=
  if Reqb p 0 then Ok (_default_output (Some ZERO_SCALED_VARIATION_MESSAGE))
  else
    a <- py_div (IZR (TestStatistic.n (stat_b self))) p ;;
    adjustment <- py_div a d ;;
    Ok {| FrequentistTestResult.expected :=
            FrequentistTestResult.expected result * adjustment;
          FrequentistTestResult.ci :=
            (ext_mul (fst (FrequentistTestResult.ci result)) adjustment,
             ext_mul (snd (FrequentistTestResult.ci result)) adjustment);
          FrequentistTestResult.p_value :=
            FrequentistTestResult.p_value result;
          FrequentistTestResult.uplift :=
            {| Uplift.dist :=
                 Uplift.dist (FrequentistTestResult.uplift result);
               Uplift.mean :=
                 Uplift.mean (FrequentistTestResult.uplift result) * adjustment;
               Uplift.stddev :=
                 Uplift.stddev (FrequentistTestResult.uplift result)
                 * adjustment |};
          FrequentistTestResult.error_message := None |}.

(** The result that [compute_result] builds before any scaling. *)
Definition unscaled_result `{Scipy} (self : t)
  : outcome FrequentistTestResult.t :=
  pe <- point_estimate self ;;
  ci <- confidence_interval self ;;
  p <- p_value self ;;
  v <- variance self ;;
  s <- np_sqrt v ;;
  Ok {| FrequentistTestResult.expected := pe;
        FrequentistTestResult.ci := ci;
        FrequentistTestResult.p_value := p;
        FrequentistTestResult.uplift :=
          {| Uplift.dist := "normal"; Uplift.mean := pe; Uplift.stddev := s |};
        FrequentistTestResult.error_message := None |}.

(** [compute_result()] *)
Definition compute_result `{Scipy} (self : t)
  : outcome FrequentistTestResult.t :=
  if Reqb (TestStatistic.mean (stat_a self)) 0 then
    Ok (_default_output (Some BASELINE_VARIATION_ZERO_MESSAGE))
  else if Reqb (TestStatistic.unadjusted_mean (stat_a self)) 0 then
    Ok (_default_output (Some BASELINE_VARIATION_ZERO_MESSAGE))
  else if _has_zero_variance self then
    Ok (_default_output (Some ZERO_NEGATIVE_VARIANCE_MESSAGE))
  else
    result <- unscaled_result self ;;
    if scaled self then
      scale_result self result (traffic_proportion_b self)
        (phase_length_days self)
    else Ok result.

End TTest.

(** The four concrete classes, as constructors of a [TTest.t]. *)
Definition TwoSidedTTest := TTest.init TwoSided.
Definition OneSidedTreatmentGreaterTTest := TTest.init OneSidedTreatmentGreater.
Definition OneSidedTreatmentLesserTTest := TTest.init OneSidedTreatmentLesser.

(** [SequentialTwoSidedTTest.__init__]: the tuning parameter is popped from
    the configuration, the rest makes a [FrequentistConfig]. *)
Definition SequentialTwoSidedTTest (stat_a stat_b : TestStatistic.t)
  (config : SequentialConfig.t) : TTest.t :=
  TTest.init
    (SequentialTwoSided (SequentialConfig.sequential_tuning_parameter config))
    stat_a stat_b
    {| FrequentistConfig.difference_type :=
         SequentialConfig.difference_type config;
       FrequentistConfig.traffic_proportion_b :=
         SequentialConfig.traffic_proportion_b config;
       FrequentistConfig.phase_length_days :=
         SequentialConfig.phase_length_days config;
       FrequentistConfig.alpha := SequentialConfig.alpha config;
       FrequentistConfig.test_value := SequentialConfig.test_value config |}.

(** ** The spec's wording of two derived quantities *)

(** The spec's [pooledVariance], in the spec's words: the ratio variance (or
    the plain sum) taken at the arms' [mean]. *)
Definition pooledVariance_spec (self : TTest.t) : outcome R :=
  frequentist_variance
    (TestStatistic.variance (TTest.stat_a self))
    (TestStatistic.mean (TTest.stat_a self))
    (TestStatistic.n (TTest.stat_a self))
    (TestStatistic.variance (TTest.stat_b self))
    (TestStatistic.mean (TTest.stat_b self))
    (TestStatistic.n (TTest.stat_b self))
    (TTest.relative self).

(** The spec's scaling, in the spec's words: [expected], both interval ends
    and the uplift's mean and standard deviation are multiplied by the
    adjustment; the p-value and the rest are kept. *)
Definition scaled_by (r : FrequentistTestResult.t) (adjustment : R)
  : FrequentistTestResult.t :=
  {| FrequentistTestResult.expected :=
       FrequentistTestResult.expected r * adjustment;
     FrequentistTestResult.ci :=
       (ext_mul (fst (FrequentistTestResult.ci r)) adjustment,
        ext_mul (snd (FrequentistTestResult.ci r)) adjustment);
     FrequentistTestResult.p_value := FrequentistTestResult.p_value r;
     FrequentistTestResult.uplift :=
       {| Uplift.dist := Uplift.dist (FrequentistTestResult.uplift r);
          Uplift.mean :=
            Uplift.mean (FrequentistTestResult.uplift r) * adjustment;
          Uplift.stddev :=
            Uplift.stddev (FrequentistTestResult.uplift r) * adjustment |};
     FrequentistTestResult.error_message :=
       FrequentistTestResult.error_message r |}.

(** The spec's [rho], in the spec's words. *)
Definition rho_spec (alpha tuningParameter : R) : R :=
  sqrt ((-2 * ln alpha + ln (1 - 2 * ln alpha)) / tuningParameter).

(** The spec's half-width of the confidence sequence, in the spec's words,
    for a pooled variance [pooledVariance] and [N = nA + nB]. *)
Definition width_spec (pooledVariance N alpha tuningParameter : R) : R :=
  let rho := rho_spec alpha tuningParameter in
  sqrt (pooledVariance * N)
  * sqrt (2 * (N * rho ^ 2 + 1) * ln (sqrt (N * rho ^ 2 + 1) / alpha)
          / (N * rho) ^ 2).

(** The contribution of one arm to the chi-squared statistic, in the spec's
    words: an arm whose weight is zero or negative contributes 0. *)
Definition srm_term (total_weight : R) (total_observed : Z) (o : Z) (w : R)
  : R :=
  if Rleb w 0 then 0
  else
    let e := w / total_weight * IZR total_observed in
    (IZR o - e) ^ 2 / e.

(** The chi-squared statistic as the sum of the arms' contributions. *)
Fixpoint srm_statistic (total_weight : R) (total_observed : Z)
  (users : list Z) (weights : list R) : R :=
  match users, weights with
  | o :: users', w :: weights' =>
      srm_term total_weight total_observed o w
      + srm_statistic total_weight total_observed users' weights'
  | _, _ => 0
  end.

(** ** Inputs on which the computations are defined *)

(** The three guards of [compute_result] let the input through. *)
Definition nondegenerate (self : TTest.t) : Prop :=
  TestStatistic.mean (TTest.stat_a self) <> 0
  /\ TestStatistic.unadjusted_mean (TTest.stat_a self) <> 0
  /\ 0 < TestStatistic.variance (TTest.stat_a self)
  /\ 0 < TestStatistic.variance (TTest.stat_b self).

(** Both arms have at least [m] units. *)
Definition counts_at_least (m : Z) (self : TTest.t) : Prop :=
  (m <= TestStatistic.n (TTest.stat_a self))%Z
  /\ (m <= TestStatistic.n (TTest.stat_b self))%Z.

(** What is assumed of scipy: for positive degrees of freedom, the Student
    [t.cdf] lies in [0, 1] and is at least 1/2 from zero on, and [chi2.sf]
    lies in [0, 1]. *)
Record ScipyLaws (S : Scipy) : Prop := {
  t_cdf_range : forall x dof, 0 < dof -> 0 <= t_cdf x dof <= 1;
  t_cdf_upper_half : forall x dof, 0 < dof -> 0 <= x -> 1 / 2 <= t_cdf x dof;
  chi2_sf_range : forall x k, (0 < k)%Z -> 0 <= chi2_sf x k <= 1
}.

(** ** Sample inputs *)

(** A stand-in for scipy, to run the definitions on concrete inputs: the
    distribution that puts all its mass at zero. *)
Definition point_mass : Scipy :=
  {| t_cdf := fun x _ => if Rleb 0 x then 1 else 0;
     t_ppf := fun _ _ => 0;
     chi2_sf := fun x _ => if Rltb 0 x then 0 else 1 |}.

(** The degenerate-baseline scenario of the spec: [stat_a.mean = 0],
    [stat_a.unadjusted_mean = 5], relative differences. *)
Definition zero_baseline_test : TTest.t :=
  TwoSidedTTest
    (TestStatistic.Build 0 5 1 100)
    (TestStatistic.Build 7 7 2 100)
    (FrequentistConfig.Build Relative 1 1 (5 / 100) 0).

(** A zero variance together with a zero baseline mean. *)
Definition zero_mean_zero_variance_test : TTest.t :=
  TwoSidedTTest
    (TestStatistic.Build 0 5 0 100)
    (TestStatistic.Build 7 7 2 100)
    (FrequentistConfig.Build Absolute 1 1 (5 / 100) 0).

(** The zero-variance scenario of the spec, with a non-zero baseline. *)
Definition zero_variance_test : TTest.t :=
  TwoSidedTTest
    (TestStatistic.Build 3 5 0 100)
    (TestStatistic.Build 7 7 2 100)
    (FrequentistConfig.Build Relative 1 1 (5 / 100) 0).

(** Arms whose adjusted and unadjusted means differ. *)
Definition adjusted_means_test : TTest.t :=
  TwoSidedTTest
    (TestStatistic.Build 1 2 1 1)
    (TestStatistic.Build 1 1 1 1)
    (FrequentistConfig.Build Relative 1 1 (5 / 100) 0).

(** A scaled test over a phase of zero days. *)
Definition zero_days_test : TTest.t :=
  TwoSidedTTest
    (TestStatistic.Build 10 10 4 1000)
    (TestStatistic.Build 11 11 4 1000)
    (FrequentistConfig.Build Scaled 1 0 (5 / 100) 0).

(** A healthy scaled test: half the traffic, ten days. *)
Definition healthy_scaled_test : TTest.t :=
  TwoSidedTTest
    (TestStatistic.Build 10 10 4 1000)
    (TestStatistic.Build 11 11 4 1000)
    (FrequentistConfig.Build Scaled (1 / 2) 10 (5 / 100) 0).

(** A healthy sequential test with the default configuration. *)
Definition healthy_sequential_test : TTest.t :=
  SequentialTwoSidedTTest
    (TestStatistic.Build 10 10 4 1000)
    (TestStatistic.Build 11 11 4 1000)
    (SequentialConfig.Build Relative 1 1 (5 / 100) 0 5000).

(** Two arms with the expected even split. *)
Definition sample_users : list Z := [10; 20]%Z.
Definition sample_weights : list R := [1; 1].

(** An arm with no weight next to two weighted ones. *)
Definition users_with_idle_arm : list Z := [7; 10; 20]%Z.
Definition weights_with_idle_arm : list R := [0; 1; 1].

(** An input that passes the guards with a single unit in arm B. *)
Definition single_unit_test : TTest.t :=
  TwoSidedTTest
    (TestStatistic.Build 10 10 4 1000)
    (TestStatistic.Build 11 11 4 1)
    (FrequentistConfig.Build Absolute 1 1 (5 / 100) 0).

(** Two healthy arms and a configuration for the fixed-sample tests. *)
Definition arm_a : TestStatistic.t := TestStatistic.Build 10 10 4 1000.
Definition arm_b : TestStatistic.t := TestStatistic.Build 11 11 4 1000.
Definition relative_config : FrequentistConfig.t :=
  FrequentistConfig.Build Relative 1 1 (5 / 100) 0.
Definition absolute_config : FrequentistConfig.t :=
  FrequentistConfig.Build Absolute 1 1 (5 / 100) 0.

(** Some healthy result, to be scaled. *)
Definition sample_result : FrequentistTestResult.t :=
  {| FrequentistTestResult.expected := 2 / 100;
     FrequentistTestResult.ci := (Fin (1 / 100), Fin (3 / 100));
     FrequentistTestResult.p_value := 1 / 100;
     FrequentistTestResult.uplift :=
       {| Uplift.dist := "normal";
          Uplift.mean := 2 / 100;
          Uplift.stddev := 1 / 200 |};
     FrequentistTestResult.error_message := None |}.

(** * Properties *)

(** ** Comparisons and checked operations *)

Lemma Reqb_eq (x y : R) : Reqb x y = true <-> x = y.
Proof. unfold Reqb. destruct (Req_dec_T x y); split; congruence. Qed.

Lemma Reqb_neq (x y : R) : Reqb x y = false <-> x <> y.
Proof. unfold Reqb. destruct (Req_dec_T x y); split; congruence. Qed.

Lemma Rleb_le (x y : R) : Rleb x y = true <-> x <= y.
Proof. unfold Rleb. destruct (Rle_dec x y); split; congruence. Qed.

Lemma Rleb_gt (x y : R) : Rleb x y = false <-> y < x.
Proof.
  unfold Rleb. destruct (Rle_dec x y); split; try congruence; lra.
Qed.

Lemma Rltb_lt (x y : R) : Rltb x y = true <-> x < y.
Proof. unfold Rltb. destruct (Rlt_dec x y); split; congruence. Qed.

Lemma Rltb_ge (x y : R) : Rltb x y = false <-> y <= x.
Proof.
  unfold Rltb. destruct (Rlt_dec x y); split; try congruence; lra.
Qed.

Lemma py_div_ok (x y : R) : y <> 0 -> py_div x y = Ok (x / y).
Proof. intros Hy. unfold py_div. apply Reqb_neq in Hy. now rewrite Hy. Qed.

Lemma py_div_zero (x : R) : py_div x 0 = Raise ZeroDivisionError.
Proof. unfold py_div. now rewrite (proj2 (Reqb_eq 0 0) eq_refl). Qed.

Lemma py_div_inv (x y q : R) : py_div x y = Ok q -> y <> 0 /\ q = x / y.
Proof.
  unfold py_div. destruct (Reqb y 0) eqn:E; [discriminate|].
  intros [= <-]. now apply Reqb_neq in E.
Qed.

Lemma np_div_ok (x y : R) : y <> 0 -> np_div x y = Ok (x / y).
Proof. intros Hy. unfold np_div. apply Reqb_neq in Hy. now rewrite Hy. Qed.

Lemma np_sqrt_ok (x : R) : 0 <= x -> np_sqrt x = Ok (sqrt x).
Proof. intros Hx. unfold np_sqrt. apply Rleb_le in Hx. now rewrite Hx. Qed.

Lemma np_log_ok (x : R) : 0 < x -> np_log x = Ok (ln x).
Proof. intros Hx. unfold np_log. apply Rltb_lt in Hx. now rewrite Hx. Qed.

Ltac side := first [assumption | lra | nra].

Ltac checked :=
  cbn [bind];
  repeat (first
            [ rewrite py_div_ok by side
            | rewrite np_div_ok by side
            | rewrite np_sqrt_ok by side
            | rewrite np_log_ok by side ];
          cbn [bind]).

(** ** frequentist_diff *)

(** C10: a zero unadjusted baseline mean is read as no adjustment: for a
    non-zero [mean_a], the relative difference computed with
    [mean_a_unadjusted = 0] is [(mean_b - mean_a) / mean_a], the same as with
    no unadjusted mean at all. *)
Theorem C10_frequentist_diff_falsy_unadjusted :
  forall mean_a mean_b : R,
    mean_a <> 0 ->
    frequentist_diff mean_a mean_b true (Some 0)
      = Ok ((mean_b - mean_a) / mean_a)
    /\ (forall relative : bool,
           frequentist_diff mean_a mean_b relative (Some 0)
           = frequentist_diff mean_a mean_b relative None).
Proof.
  intros mean_a mean_b Ha.
  assert (E : py_not (Some 0) = true) by (cbn; now apply Reqb_eq).
  unfold frequentist_diff. rewrite E. cbn [py_not].
  split; [now apply py_div_ok | reflexivity].
Qed.

Lemma C10_frequentist_diff_falsy_unadjusted_witness :
  2 <> 0
  /\ frequentist_diff 2 3 true (Some 0) = Ok ((3 - 2) / 2)
  /\ (forall relative : bool,
         frequentist_diff 2 3 relative (Some 0)
         = frequentist_diff 2 3 relative None).
Proof.
  split; [lra | apply (C10_frequentist_diff_falsy_unadjusted 2 3); lra].
Defined.

(** ** check_srm with no observed traffic *)

(** C6: when the observed counts sum to zero, [check_srm] returns exactly 1,
    whatever the weights are. *)
Theorem C6_check_srm_zero_total :
  forall (S : Scipy) (users : list Z) (weights : list R),
    sum_int users = 0%Z ->
    check_srm users weights = Ok 1.
Proof.
  intros S users weights Hsum. unfold check_srm. now rewrite Hsum.
Qed.

Lemma C6_check_srm_zero_total_witness :
  sum_int [0; 5; -5]%Z = 0%Z
  /\ @check_srm point_mass [0; 5; -5]%Z [] = Ok 1.
Proof.
  split; [reflexivity | apply C6_check_srm_zero_total; reflexivity].
Defined.

(** ** The degenerate outputs of compute_result *)

Lemma default_output_fields (m : option string) :
  let r := TTest._default_output m in
  FrequentistTestResult.expected r = 0
  /\ FrequentistTestResult.ci r = (Fin 0, Fin 0)
  /\ FrequentistTestResult.p_value r = 1
  /\ Uplift.mean (FrequentistTestResult.uplift r) = 0
  /\ Uplift.stddev (FrequentistTestResult.uplift r) = 0
  /\ FrequentistTestResult.error_message r = m.
Proof. cbn. repeat split. Qed.

Lemma compute_result_zero_baseline (S : Scipy) (self : TTest.t) :
  TestStatistic.mean (TTest.stat_a self) = 0
  \/ TestStatistic.unadjusted_mean (TTest.stat_a self) = 0 ->
  TTest.compute_result self
  = Ok (TTest._default_output (Some BASELINE_VARIATION_ZERO_MESSAGE)).
Proof.
  intros H. unfold TTest.compute_result.
  destruct (Reqb (TestStatistic.mean (TTest.stat_a self)) 0) eqn:Em;
    [reflexivity|].
  destruct H as [H | H].
  - apply Reqb_neq in Em. contradiction.
  - apply Reqb_eq in H. now rewrite H.
Qed.

Lemma has_zero_variance_iff (self : TTest.t) :
  TTest._has_zero_variance self = true
  <-> TestStatistic.variance (TTest.stat_a self) <= 0
      \/ TestStatistic.variance (TTest.stat_b self) <= 0.
Proof.
  unfold TTest._has_zero_variance.
  rewrite orb_true_iff, !Rleb_le. tauto.
Qed.

Lemma has_zero_variance_false (self : TTest.t) :
  TTest._has_zero_variance self = false
  <-> 0 < TestStatistic.variance (TTest.stat_a self)
      /\ 0 < TestStatistic.variance (TTest.stat_b self).
Proof.
  unfold TTest._has_zero_variance.
  rewrite orb_false_iff, !Rleb_gt. tauto.
Qed.

(** C3: with a zero baseline mean, adjusted or unadjusted, [compute_result]
    raises nothing and returns the default result: expected 0, interval
    [0, 0], p-value 1, uplift mean and standard deviation 0, and the
    baseline-is-zero message. *)
Theorem C3_zero_baseline_default :
  forall (S : Scipy) (self : TTest.t),
    TestStatistic.mean (TTest.stat_a self) = 0
    \/ TestStatistic.unadjusted_mean (TTest.stat_a self) = 0 ->
    exists r,
      TTest.compute_result self = Ok r
      /\ FrequentistTestResult.expected r = 0
      /\ FrequentistTestResult.ci r = (Fin 0, Fin 0)
      /\ FrequentistTestResult.p_value r = 1
      /\ Uplift.mean (FrequentistTestResult.uplift r) = 0
      /\ Uplift.stddev (FrequentistTestResult.uplift r) = 0
      /\ FrequentistTestResult.error_message r
         = Some BASELINE_VARIATION_ZERO_MESSAGE.
Proof.
  intros S self H.
  exists (TTest._default_output (Some BASELINE_VARIATION_ZERO_MESSAGE)).
  split; [now apply compute_result_zero_baseline
         | apply default_output_fields].
Qed.

Lemma C3_zero_baseline_default_witness :
  (TestStatistic.mean (TTest.stat_a zero_baseline_test) = 0
   \/ TestStatistic.unadjusted_mean (TTest.stat_a zero_baseline_test) = 0)
  /\ exists r,
      @TTest.compute_result point_mass zero_baseline_test = Ok r
      /\ FrequentistTestResult.expected r = 0
      /\ FrequentistTestResult.ci r = (Fin 0, Fin 0)
      /\ FrequentistTestResult.p_value r = 1
      /\ Uplift.mean (FrequentistTestResult.uplift r) = 0
      /\ Uplift.stddev (FrequentistTestResult.uplift r) = 0
      /\ FrequentistTestResult.error_message r
         = Some BASELINE_VARIATION_ZERO_MESSAGE.
Proof.
  split; [left; reflexivity |].
  apply (C3_zero_baseline_default point_mass zero_baseline_test).
  left; reflexivity.
Defined.

(** C2, as stated, fails: a zero variance in arm A does not give the
    zero-variance diagnostic when the baseline mean is zero too; the
    baseline check comes first and its message is returned. *)
Lemma C2_counterexample :
  TestStatistic.variance (TTest.stat_a zero_mean_zero_variance_test) = 0
  /\ @TTest.compute_result point_mass zero_mean_zero_variance_test
     = Ok (TTest._default_output (Some BASELINE_VARIATION_ZERO_MESSAGE))
  /\ @TTest.compute_result point_mass zero_mean_zero_variance_test
     <> Ok (TTest._default_output (Some ZERO_NEGATIVE_VARIANCE_MESSAGE)).
Proof.
  assert (E : @TTest.compute_result point_mass zero_mean_zero_variance_test
              = Ok (TTest._default_output
                      (Some BASELINE_VARIATION_ZERO_MESSAGE)))
    by (apply compute_result_zero_baseline; left; reflexivity).
  split; [reflexivity | split; [exact E |]].
  rewrite E. discriminate.
Qed.

(** C2, amended: when the baseline mean and the unadjusted baseline mean are
    both non-zero and the variance of either arm is zero or negative,
    [compute_result] returns the default result with the zero/negative
    variance message, whatever the other values are. *)
Theorem C2_zero_variance_default :
  forall (S : Scipy) (self : TTest.t),
    TestStatistic.mean (TTest.stat_a self) <> 0 ->
    TestStatistic.unadjusted_mean (TTest.stat_a self) <> 0 ->
    TestStatistic.variance (TTest.stat_a self) <= 0
    \/ TestStatistic.variance (TTest.stat_b self) <= 0 ->
    TTest.compute_result self
    = Ok (TTest._default_output (Some ZERO_NEGATIVE_VARIANCE_MESSAGE)).
Proof.
  intros S self Hm Hu Hv. unfold TTest.compute_result.
  apply Reqb_neq in Hm, Hu. apply has_zero_variance_iff in Hv.
  now rewrite Hm, Hu, Hv.
Qed.

Lemma C2_zero_variance_default_witness :
  (TestStatistic.mean (TTest.stat_a zero_variance_test) <> 0
   /\ TestStatistic.unadjusted_mean (TTest.stat_a zero_variance_test) <> 0
   /\ (TestStatistic.variance (TTest.stat_a zero_variance_test) <= 0
       \/ TestStatistic.variance (TTest.stat_b zero_variance_test) <= 0))
  /\ @TTest.compute_result point_mass zero_variance_test
     = Ok (TTest._default_output (Some ZERO_NEGATIVE_VARIANCE_MESSAGE)).
Proof.
  assert (Hm : TestStatistic.mean (TTest.stat_a zero_variance_test) <> 0)
    by (cbn; lra).
  assert (Hu : TestStatistic.unadjusted_mean (TTest.stat_a zero_variance_test)
               <> 0)
    by (cbn; lra).
  assert (Hv : TestStatistic.variance (TTest.stat_a zero_variance_test) <= 0
               \/ TestStatistic.variance (TTest.stat_b zero_variance_test)
                  <= 0)
    by (left; cbn; lra).
  split; [auto |].
  exact (C2_zero_variance_default point_mass zero_variance_test Hm Hu Hv).
Defined.

(** ** scale_result *)

Lemma scale_result_zero_traffic (self : TTest.t)
  (r : FrequentistTestResult.t) (d : R) :
  TTest.scale_result self r 0 d
  = Ok (TTest._default_output (Some ZERO_SCALED_VARIATION_MESSAGE)).
Proof.
  unfold TTest.scale_result. now rewrite (proj2 (Reqb_eq 0 0) eq_refl).
Qed.

Lemma scale_result_zero_days (self : TTest.t)
  (r : FrequentistTestResult.t) (p : R) :
  p <> 0 -> TTest.scale_result self r p 0 = Raise ZeroDivisionError.
Proof.
  intros Hp. unfold TTest.scale_result.
  rewrite (proj2 (Reqb_neq p 0) Hp), py_div_ok by assumption.
  cbn [bind]. now rewrite py_div_zero.
Qed.

Lemma scale_result_scaled (self : TTest.t)
  (r : FrequentistTestResult.t) (p d : R) :
  p <> 0 -> d <> 0 ->
  TTest.scale_result self r p d
  = Ok (scaled_by
          {| FrequentistTestResult.expected := FrequentistTestResult.expected r;
             FrequentistTestResult.ci := FrequentistTestResult.ci r;
             FrequentistTestResult.p_value := FrequentistTestResult.p_value r;
             FrequentistTestResult.uplift := FrequentistTestResult.uplift r;
             FrequentistTestResult.error_message := None |}
          (IZR (TestStatistic.n (TTest.stat_b self)) / p / d)).
Proof.
  intros Hp Hd. unfold TTest.scale_result.
  rewrite (proj2 (Reqb_neq p 0) Hp), py_div_ok by assumption.
  cbn [bind]. rewrite py_div_ok by assumption. reflexivity.
Qed.

(** C4, as stated, fails: with a non-zero traffic proportion and a phase of
    zero days, the division raises and no result is returned. *)
Lemma C4_counterexample :
  TTest.traffic_proportion_b zero_days_test <> 0
  /\ TTest.phase_length_days zero_days_test = 0
  /\ TTest.scale_result zero_days_test sample_result
       (TTest.traffic_proportion_b zero_days_test)
       (TTest.phase_length_days zero_days_test)
     = Raise ZeroDivisionError
  /\ ~ exists res,
         TTest.scale_result zero_days_test sample_result
           (TTest.traffic_proportion_b zero_days_test)
           (TTest.phase_length_days zero_days_test)
         = Ok res.
Proof.
  assert (Hp : TTest.traffic_proportion_b zero_days_test <> 0)
    by (cbn; lra).
  assert (E : TTest.scale_result zero_days_test sample_result
                (TTest.traffic_proportion_b zero_days_test)
                (TTest.phase_length_days zero_days_test)
              = Raise ZeroDivisionError)
    by (now apply scale_result_zero_days).
  repeat split; [exact Hp | exact E |].
  rewrite E. intros [res H]. discriminate H.
Qed.

(** C4, amended: [scale_result] returns the default result with the
    zero-scaled-variation message exactly when the traffic proportion is
    zero; for a non-zero traffic proportion and a non-zero phase length it
    returns the result scaled by [n_b / p / d], which carries no message. *)
Theorem C4_scale_result_default_iff :
  forall (self : TTest.t) (r : FrequentistTestResult.t) (p d : R),
    (TTest.scale_result self r p d
     = Ok (TTest._default_output (Some ZERO_SCALED_VARIATION_MESSAGE))
     <-> p = 0)
    /\ (p <> 0 -> d <> 0 ->
        let adjustment :=
          IZR (TestStatistic.n (TTest.stat_b self)) / p / d in
        exists res,
          TTest.scale_result self r p d = Ok res
          /\ FrequentistTestResult.expected res
             = FrequentistTestResult.expected r * adjustment
          /\ FrequentistTestResult.ci res
             = (ext_mul (fst (FrequentistTestResult.ci r)) adjustment,
                ext_mul (snd (FrequentistTestResult.ci r)) adjustment)
          /\ FrequentistTestResult.p_value res
             = FrequentistTestResult.p_value r
          /\ Uplift.mean (FrequentistTestResult.uplift res)
             = Uplift.mean (FrequentistTestResult.uplift r) * adjustment
          /\ Uplift.stddev (FrequentistTestResult.uplift res)
             = Uplift.stddev (FrequentistTestResult.uplift r) * adjustment
          /\ FrequentistTestResult.error_message res = None
          /\ res
             <> TTest._default_output (Some ZERO_SCALED_VARIATION_MESSAGE)).
Proof.
  intros self r p d. split.
  - split.
    + intros H. destruct (Req_dec_T p 0) as [Hp | Hp]; [exact Hp | exfalso].
      destruct (Req_dec_T d 0) as [Hd | Hd].
      * subst d. rewrite scale_result_zero_days in H by assumption.
        discriminate H.
      * rewrite scale_result_scaled in H by assumption.
        apply (f_equal (fun o => match o with
                                 | Ok res =>
                                     FrequentistTestResult.error_message res
                                 | _ => None
                                 end)) in H.
        discriminate H.
    + intros ->. apply scale_result_zero_traffic.
  - intros Hp Hd adjustment. eexists.
    split; [now apply scale_result_scaled |].
    cbn. repeat split. intros H.
    discriminate (f_equal FrequentistTestResult.error_message H).
Qed.

Lemma C4_scale_result_default_iff_witness :
  (1 / 2 <> 0 /\ 10 <> 0)
  /\ exists res,
       TTest.scale_result zero_days_test sample_result (1 / 2) 10 = Ok res
       /\ FrequentistTestResult.expected res
          = FrequentistTestResult.expected sample_result
            * (IZR (TestStatistic.n (TTest.stat_b zero_days_test))
               / (1 / 2) / 10)
       /\ FrequentistTestResult.error_message res = None.
Proof.
  assert (Hp : 1 / 2 <> 0) by lra.
  assert (Hd : 10 <> 0) by lra.
  split; [split; assumption |].
  destruct (proj2 (C4_scale_result_default_iff zero_days_test sample_result
                     (1 / 2) 10) Hp Hd)
    as (res & Hres & He & _ & _ & _ & _ & Hm & _).
  exists res. repeat split; assumption.
Defined.

(** ** The pooled variance *)

Lemma variance_relative_value (self : TTest.t) :
  TTest.relative self = true ->
  IZR (TestStatistic.n (TTest.stat_a self)) <> 0 ->
  IZR (TestStatistic.n (TTest.stat_b self)) <> 0 ->
  TestStatistic.unadjusted_mean (TTest.stat_a self) <> 0 ->
  let mean_a := TestStatistic.unadjusted_mean (TTest.stat_a self) in
  let mean_b := TestStatistic.unadjusted_mean (TTest.stat_b self) in
  let va := TestStatistic.variance (TTest.stat_a self)
            / IZR (TestStatistic.n (TTest.stat_a self)) in
  let vb := TestStatistic.variance (TTest.stat_b self)
            / IZR (TestStatistic.n (TTest.stat_b self)) in
  TTest.variance self
  = Ok (vb / mean_a ^ 2 + va * mean_b ^ 2 / mean_a ^ 4
        - 2 * 0 * mean_b / mean_a ^ 3).
Proof.
  intros Hr Ha Hb Hm. cbv zeta.
  unfold TTest.variance, frequentist_variance, variance_of_ratios.
  rewrite Hr.
  assert (H2 : TestStatistic.unadjusted_mean (TTest.stat_a self) ^ 2 <> 0)
    by (now apply pow_nonzero).
  assert (H3 : TestStatistic.unadjusted_mean (TTest.stat_a self) ^ 3 <> 0)
    by (now apply pow_nonzero).
  assert (H4 : TestStatistic.unadjusted_mean (TTest.stat_a self) ^ 4 <> 0)
    by (now apply pow_nonzero).
  now checked.
Qed.

Lemma variance_absolute_value (self : TTest.t) :
  TTest.relative self = false ->
  IZR (TestStatistic.n (TTest.stat_a self)) <> 0 ->
  IZR (TestStatistic.n (TTest.stat_b self)) <> 0 ->
  TTest.variance self
  = Ok (TestStatistic.variance (TTest.stat_b self)
        / IZR (TestStatistic.n (TTest.stat_b self))
        + TestStatistic.variance (TTest.stat_a self)
          / IZR (TestStatistic.n (TTest.stat_a self))).
Proof.
  intros Hr Ha Hb. unfold TTest.variance, frequentist_variance.
  rewrite Hr. now checked.
Qed.

(** C1, as stated, fails: the ratio variance is not taken at the arms'
    [mean].  For arms whose adjusted and unadjusted means differ, the code
    gives 5/16 where the claim's formula gives 2. *)
Lemma C1_counterexample :
  TTest.relative adjusted_means_test = true
  /\ TTest.variance adjusted_means_test = Ok (5 / 16)
  /\ pooledVariance_spec adjusted_means_test = Ok 2
  /\ TTest.variance adjusted_means_test
     <> pooledVariance_spec adjusted_means_test.
Proof.
  assert (E1 : TTest.variance adjusted_means_test = Ok (5 / 16)).
  { rewrite variance_relative_value; cbn; try lra; try reflexivity.
    f_equal. lra. }
  assert (E2 : pooledVariance_spec adjusted_means_test = Ok 2).
  { unfold pooledVariance_spec, frequentist_variance, variance_of_ratios.
    cbn. checked. f_equal. lra. }
  repeat split; [exact E1 | exact E2 |].
  rewrite E1, E2. intros [= H]. lra.
Qed.

(** C1, amended: with the relative difference type the pooled variance is
    [variance_of_ratios] applied to (unadjusted mean of B, var_b / n_b,
    unadjusted mean of A, var_a / n_a, 0), the delta-method ratio variance
    at the arms' unadjusted means; with the absolute and scaled types it is
    [var_b / n_b + var_a / n_a].  It agrees with the formula at the arms'
    [mean] when each arm's mean equals its unadjusted mean. *)
Theorem C1_pooled_variance :
  forall (k : variant) (a b : TestStatistic.t) (cfg : FrequentistConfig.t),
    let self := TTest.init k a b cfg in
    let var_a := TestStatistic.variance a in
    let var_b := TestStatistic.variance b in
    let n_a := IZR (TestStatistic.n a) in
    let n_b := IZR (TestStatistic.n b) in
    (FrequentistConfig.difference_type cfg = Relative ->
     TTest.variance self
     = (vb <- py_div var_b n_b ;;
        va <- py_div var_a n_a ;;
        variance_of_ratios (TestStatistic.unadjusted_mean b) vb
          (TestStatistic.unadjusted_mean a) va 0))
    /\ (FrequentistConfig.difference_type cfg = Relative ->
        n_a <> 0 -> n_b <> 0 -> TestStatistic.unadjusted_mean a <> 0 ->
        TTest.variance self
        = Ok (var_b / n_b / TestStatistic.unadjusted_mean a ^ 2
              + var_a / n_a * TestStatistic.unadjusted_mean b ^ 2
                / TestStatistic.unadjusted_mean a ^ 4))
    /\ (FrequentistConfig.difference_type cfg <> Relative ->
        TTest.variance self
        = (vb <- py_div var_b n_b ;; va <- py_div var_a n_a ;; Ok (vb + va)))
    /\ (FrequentistConfig.difference_type cfg <> Relative ->
        n_a <> 0 -> n_b <> 0 ->
        TTest.variance self = Ok (var_b / n_b + var_a / n_a))
    /\ (TestStatistic.mean a = TestStatistic.unadjusted_mean a ->
        TestStatistic.mean b = TestStatistic.unadjusted_mean b ->
        TTest.variance self = pooledVariance_spec self).
Proof.
  intros k a b cfg self var_a var_b n_a n_b.
  assert (Hrel : FrequentistConfig.difference_type cfg = Relative ->
                 TTest.relative self = true)
    by (intros E; cbn; now rewrite E).
  assert (Habs : FrequentistConfig.difference_type cfg <> Relative ->
                 TTest.relative self = false)
    by (intros E; cbn; destruct (FrequentistConfig.difference_type cfg);
        [reflexivity | contradiction | reflexivity]).
  repeat split.
  - intros E. unfold TTest.variance, frequentist_variance.
    now rewrite (Hrel E).
  - intros E Ha Hb Hm.
    rewrite variance_relative_value by (try apply Hrel; assumption).
    f_equal. subst self var_a var_b n_a n_b. cbn.
    unfold Rdiv. ring.
  - intros E. unfold TTest.variance, frequentist_variance.
    now rewrite (Habs E).
  - intros E Ha Hb.
    now rewrite variance_absolute_value by (try apply Habs; assumption).
  - intros Ea Eb. unfold pooledVariance_spec, TTest.variance.
    subst self. cbn. now rewrite Ea, Eb.
Qed.

Lemma C1_pooled_variance_witness :
  let a := TestStatistic.Build 1 2 1 1 in
  let b := TestStatistic.Build 1 1 1 1 in
  let cfg := FrequentistConfig.Build Relative 1 1 (5 / 100) 0 in
  (FrequentistConfig.difference_type cfg = Relative
   /\ IZR (TestStatistic.n a) <> 0 /\ IZR (TestStatistic.n b) <> 0
   /\ TestStatistic.unadjusted_mean a <> 0)
  /\ TTest.variance (TTest.init TwoSided a b cfg)
     = Ok (1 / 1 / 2 ^ 2 + 1 / 1 * 1 ^ 2 / 2 ^ 4).
Proof.
  cbv zeta.
  assert (Hn : IZR 1 <> 0) by lra.
  assert (Hm : 2 <> 0) by lra.
  split; [repeat split; assumption |].
  exact (proj1 (proj2 (C1_pooled_variance TwoSided
                         (TestStatistic.Build 1 2 1 1)
                         (TestStatistic.Build 1 1 1 1)
                         (FrequentistConfig.Build Relative 1 1 (5 / 100) 0)))
           eq_refl Hn Hn Hm).
Defined.

(** ** Scaling inside compute_result *)

Lemma bind_ok_inv {A B : Type} (c : outcome A) (k : A -> outcome B) (b : B) :
  bind c k = Ok b -> exists a, c = Ok a /\ k a = Ok b.
Proof. destruct c; cbn; intros H; try discriminate. now exists a. Qed.

Lemma unscaled_result_no_message (S : Scipy) (self : TTest.t)
  (r : FrequentistTestResult.t) :
  TTest.unscaled_result self = Ok r ->
  FrequentistTestResult.error_message r = None.
Proof.
  unfold TTest.unscaled_result. intros H.
  repeat (apply bind_ok_inv in H; destruct H as (? & _ & H)).
  now injection H as <-.
Qed.

Lemma compute_result_nondegenerate (S : Scipy) (self : TTest.t) :
  TestStatistic.mean (TTest.stat_a self) <> 0 ->
  TestStatistic.unadjusted_mean (TTest.stat_a self) <> 0 ->
  0 < TestStatistic.variance (TTest.stat_a self) ->
  0 < TestStatistic.variance (TTest.stat_b self) ->
  TTest.compute_result self
  = (result <- TTest.unscaled_result self ;;
     if TTest.scaled self then
       TTest.scale_result self result (TTest.traffic_proportion_b self)
         (TTest.phase_length_days self)
     else Ok result).
Proof.
  intros Hm Hu Ha Hb. unfold TTest.compute_result.
  apply Reqb_neq in Hm, Hu.
  assert (Hv : TTest._has_zero_variance self = false)
    by (now apply has_zero_variance_false).
  now rewrite Hm, Hu, Hv.
Qed.

(** The scaled difference type computes the same unscaled result as the
    absolute one: neither is relative. *)
Lemma unscaled_result_scaled_is_absolute (S : Scipy) (k : variant)
  (a b : TestStatistic.t) (p d al tv : R) :
  TTest.unscaled_result
    (TTest.init k a b (FrequentistConfig.Build Scaled p d al tv))
  = TTest.unscaled_result
      (TTest.init k a b (FrequentistConfig.Build Absolute p d al tv)).
Proof. reflexivity. Qed.

(** C5: for a non-degenerate input with the scaled difference type and a
    non-zero traffic proportion, the result returned is the unscaled result
    with [expected], both interval ends and the uplift's mean and standard
    deviation multiplied by [n_b / traffic_proportion_b / phase_length_days],
    and with the same p-value; an unscaled estimate of 0.02 with traffic
    proportion 0.5, 10 days and [n_b = 1000] scales to 4. *)
Theorem C5_scaled_result :
  forall (S : Scipy) (self : TTest.t) (r0 : FrequentistTestResult.t),
    TTest.scaled self = true ->
    TTest.traffic_proportion_b self <> 0 ->
    nondegenerate self ->
    TTest.unscaled_result self = Ok r0 ->
    let adjustment :=
      IZR (TestStatistic.n (TTest.stat_b self))
      / TTest.traffic_proportion_b self / TTest.phase_length_days self in
    (TTest.phase_length_days self <> 0 ->
     TTest.compute_result self = Ok (scaled_by r0 adjustment))
    /\ (forall res,
           TTest.compute_result self = Ok res ->
           res = scaled_by r0 adjustment
           /\ FrequentistTestResult.p_value res
              = FrequentistTestResult.p_value r0)
    /\ (forall (other : TTest.t) (r : FrequentistTestResult.t),
           TestStatistic.n (TTest.stat_b other) = 1000%Z ->
           FrequentistTestResult.expected r = 2 / 100 ->
           exists res,
             TTest.scale_result other r (1 / 2) 10 = Ok res
             /\ FrequentistTestResult.expected res = 4).
Proof.
  intros S self r0 Hs Hp (Hm & Hu & Ha & Hb) Hr adjustment.
  assert (Hc : TTest.phase_length_days self <> 0 ->
               TTest.compute_result self = Ok (scaled_by r0 adjustment)).
  { intros Hd.
    rewrite compute_result_nondegenerate, Hr by assumption.
    cbn [bind]. rewrite Hs, scale_result_scaled by assumption.
    apply unscaled_result_no_message in Hr.
    destruct r0; cbn in *; now subst. }
  split; [exact Hc | split].
  - intros res Hres.
    destruct (Req_dec_T (TTest.phase_length_days self) 0) as [Hd | Hd].
    + rewrite compute_result_nondegenerate, Hr in Hres by assumption.
      cbn [bind] in Hres.
      rewrite Hs, Hd, scale_result_zero_days in Hres by assumption.
      discriminate Hres.
    + rewrite (Hc Hd) in Hres. injection Hres as <-. now split.
  - intros other r Hn He. eexists.
    split; [apply scale_result_scaled; lra |].
    cbn. rewrite Hn, He. lra.
Qed.

(** ** The shared quantities on inputs that pass the guards *)

Lemma IZR_pos_of_le (m : Z) : (1 <= m)%Z -> 0 < IZR m.
Proof. intros H. apply (IZR_lt 0). lia. Qed.

Lemma pow2_pos (x : R) : x <> 0 -> 0 < x ^ 2.
Proof.
  intros Hx. destruct (Rtotal_order x 0) as [H | [H | H]];
    [nra | contradiction | nra].
Qed.

Lemma point_estimate_value (self : TTest.t) :
  TestStatistic.unadjusted_mean (TTest.stat_a self) <> 0 ->
  TTest.point_estimate self
  = Ok (if TTest.relative self
        then (TestStatistic.mean (TTest.stat_b self)
              - TestStatistic.mean (TTest.stat_a self))
             / TestStatistic.unadjusted_mean (TTest.stat_a self)
        else TestStatistic.mean (TTest.stat_b self)
             - TestStatistic.mean (TTest.stat_a self)).
Proof.
  intros Hu. unfold TTest.point_estimate, frequentist_diff. cbn [py_not].
  rewrite (proj2 (Reqb_neq _ 0) Hu).
  destruct (TTest.relative self); [now apply py_div_ok | reflexivity].
Qed.

Lemma variance_positive (self : TTest.t) :
  nondegenerate self -> counts_at_least 1 self ->
  exists v, TTest.variance self = Ok v /\ 0 < v.
Proof.
  intros (_ & Hu & Ha & Hb) (Hna & Hnb).
  apply IZR_pos_of_le in Hna, Hnb.
  set (va := TestStatistic.variance (TTest.stat_a self)
             / IZR (TestStatistic.n (TTest.stat_a self))).
  set (vb := TestStatistic.variance (TTest.stat_b self)
             / IZR (TestStatistic.n (TTest.stat_b self))).
  assert (Hva : 0 < va) by (now apply Rdiv_lt_0_compat).
  assert (Hvb : 0 < vb) by (now apply Rdiv_lt_0_compat).
  destruct (TTest.relative self) eqn:Hr.
  - eexists. split; [apply variance_relative_value; try assumption; lra |].
    fold va vb.
    set (ma := TestStatistic.unadjusted_mean (TTest.stat_a self)) in *.
    set (mb := TestStatistic.unadjusted_mean (TTest.stat_b self)).
    assert (H2 : 0 < ma ^ 2) by (apply pow2_pos; exact Hu).
    assert (H4 : 0 < ma ^ 4)
      by (replace (ma ^ 4) with (ma ^ 2 * ma ^ 2) by ring; nra).
    assert (T1 : 0 < vb / ma ^ 2) by (now apply Rdiv_lt_0_compat).
    assert (T2 : 0 <= va * mb ^ 2 / ma ^ 4).
    { apply Rmult_le_pos; [| left; now apply Rinv_0_lt_compat].
      apply Rmult_le_pos; [lra | apply pow2_ge_0]. }
    replace (2 * 0 * mb / ma ^ 3) with 0 by (unfold Rdiv; ring). lra.
  - eexists. split; [apply variance_absolute_value; try assumption; lra |].
    fold va vb. lra.
Qed.

Lemma dof_positive (self : TTest.t) :
  nondegenerate self -> counts_at_least 2 self ->
  exists d, TTest.dof self = Ok d /\ 0 < d.
Proof.
  intros (_ & _ & Ha & Hb) (Hna & Hnb).
  set (n_a := TestStatistic.n (TTest.stat_a self)) in *.
  set (n_b := TestStatistic.n (TTest.stat_b self)) in *.
  set (var_a := TestStatistic.variance (TTest.stat_a self)) in *.
  set (var_b := TestStatistic.variance (TTest.stat_b self)) in *.
  assert (Pa : 0 < IZR n_a) by (apply IZR_pos_of_le; lia).
  assert (Pb : 0 < IZR n_b) by (apply IZR_pos_of_le; lia).
  assert (Qa : 0 < IZR (n_a ^ 2 * (n_a - 1))) by (apply (IZR_lt 0); nia).
  assert (Qb : 0 < IZR (n_b ^ 2 * (n_b - 1))) by (apply (IZR_lt 0); nia).
  assert (Da : 0 < var_a ^ 2 / IZR (n_a ^ 2 * (n_a - 1)))
    by (apply Rdiv_lt_0_compat; [nra | assumption]).
  assert (Db : 0 < var_b ^ 2 / IZR (n_b ^ 2 * (n_b - 1)))
    by (apply Rdiv_lt_0_compat; [nra | assumption]).
  assert (Sa : 0 < var_a / IZR n_a) by (now apply Rdiv_lt_0_compat).
  assert (Sb : 0 < var_b / IZR n_b) by (now apply Rdiv_lt_0_compat).
  eexists. split.
  - unfold TTest.dof. fold n_a n_b var_a var_b. cbv zeta. checked.
    reflexivity.
  - apply Rdiv_lt_0_compat; nra.
Qed.

Lemma critical_value_defined (self : TTest.t) :
  nondegenerate self -> counts_at_least 1 self ->
  exists c, TTest.critical_value self = Ok c.
Proof.
  intros Hnd Hn. destruct (variance_positive self Hnd Hn) as (v & Hv & Pv).
  destruct Hnd as (_ & Hu & _).
  unfold TTest.critical_value.
  rewrite point_estimate_value, Hv by assumption. cbn [bind].
  assert (Hs : 0 < sqrt v) by (now apply sqrt_lt_R0).
  checked. now eexists.
Qed.

(** ** The sequential test *)

Lemma ln_neg (x : R) : 0 < x < 1 -> ln x < 0.
Proof. intros [H0 H1]. rewrite <- ln_1. now apply ln_increasing. Qed.

Lemma ln_pos (x : R) : 1 < x -> 0 < ln x.
Proof. intros H. rewrite <- ln_1. apply ln_increasing; lra. Qed.

Lemma rho_spec_positive (alpha tuning : R) :
  0 < alpha < 1 -> 0 < tuning -> 0 < rho_spec alpha tuning.
Proof.
  intros Ha Ht. unfold rho_spec. apply sqrt_lt_R0.
  pose proof (ln_neg alpha Ha) as Hl.
  assert (H1 : 0 < ln (1 - 2 * ln alpha)) by (apply ln_pos; lra).
  apply Rdiv_lt_0_compat; lra.
Qed.

Lemma rho_value (self : TTest.t) (tuning : R) :
  0 < TTest.alpha self < 1 -> 0 < tuning ->
  TTest.rho self tuning = Ok (rho_spec (TTest.alpha self) tuning).
Proof.
  intros Ha Ht. unfold TTest.rho, rho_spec.
  pose proof (ln_neg _ Ha) as Hl.
  assert (H1 : 0 < ln (-2 * ln (TTest.alpha self) + 1))
    by (apply ln_pos; lra).
  assert (H2 : 0 <= (-2 * ln (TTest.alpha self)
                     + ln (-2 * ln (TTest.alpha self) + 1)) / tuning)
    by (left; apply Rdiv_lt_0_compat; lra).
  checked.
  now replace (1 - 2 * ln (TTest.alpha self))
    with (-2 * ln (TTest.alpha self) + 1) by ring.
Qed.

Lemma sqrt_ge_1 (x : R) : 1 <= x -> 1 <= sqrt x.
Proof. intros H. rewrite <- sqrt_1 at 1. apply sqrt_le_1; lra. Qed.

(** The interval of the sequential test on an input that passes the guards,
    for a variance [v] and a point estimate [pe] already computed. *)
Lemma sequential_interval_value (S : Scipy) (self : TTest.t)
  (tuning v pe : R) :
  TTest.kind self = SequentialTwoSided tuning ->
  0 < TTest.alpha self < 1 -> 0 < tuning ->
  counts_at_least 1 self ->
  TTest.variance self = Ok v -> 0 <= v ->
  TTest.point_estimate self = Ok pe ->
  let N := IZR (TestStatistic.n (TTest.stat_a self)
                + TestStatistic.n (TTest.stat_b self)) in
  let width := width_spec v N (TTest.alpha self) tuning in
  TTest.confidence_interval self = Ok (Fin (pe - width), Fin (pe + width)).
Proof.
  intros Hk Ha Ht (Hna & Hnb) Hv Pv Hpe N width.
  assert (HN : 2 <= N) by (apply (IZR_le 2); lia).
  pose proof (rho_spec_positive _ _ Ha Ht) as Hr.
  unfold TTest.confidence_interval. rewrite Hk, rho_value, Hv by assumption.
  cbn [bind]. fold N.
  set (r := rho_spec (TTest.alpha self) tuning) in *.
  assert (H1 : 1 <= N * r ^ 2 + 1) by nra.
  assert (Hm : 1 <= sqrt (N * r ^ 2 + 1)) by (now apply sqrt_ge_1).
  assert (Hq : 1 < sqrt (N * r ^ 2 + 1) / TTest.alpha self).
  { apply (Rmult_lt_reg_r (TTest.alpha self)); [lra |].
    unfold Rdiv. rewrite Rmult_assoc, Rinv_l by lra. lra. }
  assert (Hl : 0 < ln (sqrt (N * r ^ 2 + 1) / TTest.alpha self))
    by (now apply ln_pos).
  assert (Hd : 0 < (N * r) ^ 2) by (apply pow2_pos; nra).
  assert (Hf : 0 <= 2 * (N * r ^ 2 + 1)
                    * ln (sqrt (N * r ^ 2 + 1) / TTest.alpha self)
                    / (N * r) ^ 2).
  { left. apply Rdiv_lt_0_compat; [| assumption].
    apply Rmult_lt_0_compat; lra. }
  assert (Hs2 : 0 <= v * N) by nra.
  checked. rewrite Hpe. cbn [bind]. reflexivity.
Qed.

(** C9: on a non-degenerate input, the sequential test's interval is the
    point estimate plus and minus
    [sqrt (pooledVariance * N) * sqrt (2 * (N * rho^2 + 1)
     * ln (sqrt (N * rho^2 + 1) / alpha) / (N * rho)^2)]
    with [N = n_a + n_b] and
    [rho = sqrt ((-2 * ln alpha + ln (1 - 2 * ln alpha)) / tuning)]. *)
Theorem C9_sequential_interval :
  forall (S : Scipy) (self : TTest.t) (tuning : R),
    TTest.kind self = SequentialTwoSided tuning ->
    nondegenerate self ->
    counts_at_least 1 self ->
    0 < TTest.alpha self < 1 ->
    0 < tuning ->
    let N := IZR (TestStatistic.n (TTest.stat_a self)
                  + TestStatistic.n (TTest.stat_b self)) in
    exists pointEstimate pooledVariance,
      TTest.point_estimate self = Ok pointEstimate
      /\ TTest.variance self = Ok pooledVariance
      /\ TTest.rho self tuning = Ok (rho_spec (TTest.alpha self) tuning)
      /\ TTest.confidence_interval self
         = Ok (Fin (pointEstimate
                    - width_spec pooledVariance N (TTest.alpha self) tuning),
               Fin (pointEstimate
                    + width_spec pooledVariance N (TTest.alpha self) tuning)).
Proof.
  intros S self tuning Hk Hnd Hn Ha Ht N.
  destruct (variance_positive self Hnd Hn) as (v & Hv & Pv).
  pose proof Hnd as (_ & Hu & _).
  eexists. exists v.
  split; [now apply point_estimate_value |].
  split; [exact Hv |].
  split; [now apply rho_value |].
  apply sequential_interval_value; try assumption; try lra.
  now apply point_estimate_value.
Qed.

Lemma healthy_sequential_nondegenerate : nondegenerate healthy_sequential_test.
Proof. unfold nondegenerate; cbn; repeat split; lra. Qed.

Lemma healthy_sequential_counts : counts_at_least 1 healthy_sequential_test.
Proof. unfold counts_at_least; cbn; lia. Qed.

Lemma healthy_sequential_alpha : 0 < TTest.alpha healthy_sequential_test < 1.
Proof. cbn; lra. Qed.

Lemma C9_sequential_interval_witness :
  (nondegenerate healthy_sequential_test
   /\ counts_at_least 1 healthy_sequential_test
   /\ 0 < TTest.alpha healthy_sequential_test < 1
   /\ 0 < 5000)
  /\ exists pointEstimate pooledVariance,
      TTest.point_estimate healthy_sequential_test = Ok pointEstimate
      /\ TTest.variance healthy_sequential_test = Ok pooledVariance
      /\ TTest.rho healthy_sequential_test 5000
         = Ok (rho_spec (TTest.alpha healthy_sequential_test) 5000)
      /\ @TTest.confidence_interval point_mass healthy_sequential_test
         = Ok (Fin (pointEstimate
                    - width_spec pooledVariance (IZR (1000 + 1000))
                        (TTest.alpha healthy_sequential_test) 5000),
               Fin (pointEstimate
                    + width_spec pooledVariance (IZR (1000 + 1000))
                        (TTest.alpha healthy_sequential_test) 5000)).
Proof.
  assert (Ht : 0 < 5000) by lra.
  split.
  - repeat split; try exact Ht;
      try apply healthy_sequential_nondegenerate;
      try apply healthy_sequential_counts;
      apply healthy_sequential_alpha.
  - exact (C9_sequential_interval point_mass healthy_sequential_test 5000
             eq_refl healthy_sequential_nondegenerate
             healthy_sequential_counts healthy_sequential_alpha Ht).
Defined.

(** ** The p-values *)

Lemma py_min_unit (q : R) : 0 <= q -> 0 <= py_min q 1 <= 1.
Proof.
  intros Hq. unfold py_min. destruct (Rltb 1 q) eqn:E; [lra |].
  apply Rltb_ge in E. lra.
Qed.

(** The last step of the sequential p-value: the inverse of a positive
    e-value, cut at 1. *)
Lemma evalue_tail (evalue : R) :
  0 < evalue ->
  exists p,
    (q <- np_div 1 evalue ;; Ok (py_min q 1)) = Ok p /\ 0 <= p <= 1.
Proof.
  intros He.
  assert (Hq : 0 < 1 / evalue) by (apply Rdiv_lt_0_compat; lra).
  eexists. split; [checked; reflexivity |].
  apply py_min_unit. lra.
Qed.

Lemma sequential_p_value_unit (S : Scipy) (self : TTest.t) (tuning : R) :
  TTest.kind self = SequentialTwoSided tuning ->
  nondegenerate self -> counts_at_least 1 self ->
  0 < TTest.alpha self < 1 -> 0 < tuning ->
  exists p, TTest.p_value self = Ok p /\ 0 <= p <= 1.
Proof.
  intros Hk Hnd Hn Ha Ht.
  destruct (variance_positive self Hnd Hn) as (v & Hv & Pv).
  pose proof Hnd as (_ & Hu & _). destruct Hn as (Hna & Hnb).
  pose proof (rho_spec_positive _ _ Ha Ht) as Hr.
  unfold TTest.p_value.
  rewrite Hk, point_estimate_value, Hv, rho_value by assumption.
  cbn [bind].
  set (N := IZR (TestStatistic.n (TTest.stat_a self)
                 + TestStatistic.n (TTest.stat_b self))).
  assert (HN : 2 <= N) by (apply (IZR_le 2); lia).
  set (r := rho_spec (TTest.alpha self) tuning) in *.
  assert (H1 : 1 <= N * r ^ 2 + 1) by nra.
  assert (Hs : 0 < sqrt (N * r ^ 2 + 1)) by (apply sqrt_lt_R0; lra).
  checked. apply evalue_tail.
  apply Rdiv_lt_0_compat; [apply exp_pos | exact Hs].
Qed.

Lemma fixed_p_value_unit (S : Scipy) (L : ScipyLaws S) (self : TTest.t) :
  TTest.kind self = TwoSided
  \/ TTest.kind self = OneSidedTreatmentGreater
  \/ TTest.kind self = OneSidedTreatmentLesser ->
  nondegenerate self -> counts_at_least 2 self ->
  exists p, TTest.p_value self = Ok p /\ 0 <= p <= 1.
Proof.
  intros Hk Hnd Hn.
  assert (Hn1 : counts_at_least 1 self)
    by (destruct Hn; split; lia).
  destruct (critical_value_defined self Hnd Hn1) as (c & Hc).
  destruct (dof_positive self Hnd Hn) as (d & Hd & Pd).
  pose proof (t_cdf_range S L c d Pd) as Hrange.
  pose proof (t_cdf_upper_half S L (Rabs c) d Pd (Rabs_pos c)) as Hhalf.
  pose proof (t_cdf_range S L (Rabs c) d Pd) as Habs.
  unfold TTest.p_value.
  destruct Hk as [Hk | [Hk | Hk]]; rewrite Hk, Hc, Hd; cbn [bind];
    eexists; (split; [reflexivity | lra]).
Qed.

Lemma check_srm_loop_defined (weights : list R) (total_weight : R)
  (total_observed : Z) (users : list Z) :
  total_weight <> 0 -> total_observed <> 0%Z ->
  forall (i : nat) (x : R),
    (i + List.length users <= List.length weights)%nat ->
    exists y,
      check_srm_loop weights total_weight total_observed i users x = Ok y.
Proof.
  intros Hw Ho. induction users as [| o rest IH]; intros i x Hlen.
  - now exists x.
  - cbn [check_srm_loop]. unfold py_index.
    destruct (nth_error weights i) as [w |] eqn:Ew.
    2:{ apply nth_error_None in Ew. cbn in Hlen. lia. }
    cbn [bind]. cbn [List.length] in Hlen.
    destruct (Rleb w 0) eqn:E; [apply IH; lia |].
    apply Rleb_gt in E.
    assert (He : w / total_weight * IZR total_observed <> 0).
    { apply Rmult_integral_contrapositive_currified.
      - unfold Rdiv. apply Rmult_integral_contrapositive_currified;
          [lra | now apply Rinv_neq_0_compat].
      - now apply not_0_IZR. }
    checked. apply IH. lia.
Qed.

Lemma check_srm_unit (S : Scipy) (L : ScipyLaws S)
  (users : list Z) (weights : list R) :
  (2 <= List.length users <= List.length weights)%nat ->
  sum_float weights <> 0 ->
  exists p, check_srm users weights = Ok p /\ 0 <= p <= 1.
Proof.
  intros Hlen Hw. unfold check_srm.
  destruct (sum_int users =? 0)%Z eqn:E.
  - exists 1. split; [reflexivity | lra].
  - apply Z.eqb_neq in E.
    destruct (check_srm_loop_defined weights (sum_float weights)
                (sum_int users) users Hw E 0%nat 0) as (x & Hx);
      [cbn; lia |].
    rewrite Hx. cbn [bind]. eexists. split; [reflexivity |].
    apply (chi2_sf_range S L). lia.
Qed.

Lemma dof_defined_counts (self : TTest.t) (d : R) :
  TTest.dof self = Ok d ->
  TestStatistic.n (TTest.stat_a self) <> 1%Z
  /\ TestStatistic.n (TTest.stat_b self) <> 1%Z.
Proof.
  unfold TTest.dof. cbv zeta. intros H.
  apply bind_ok_inv in H. destruct H as (qb & _ & H).
  apply bind_ok_inv in H. destruct H as (qa & _ & H).
  apply bind_ok_inv in H. destruct H as (db & Hb & H).
  apply bind_ok_inv in H. destruct H as (da & Ha & _).
  apply py_div_inv in Ha, Hb. destruct Ha as (Ha & _), Hb as (Hb & _).
  split; intros E; [apply Ha | apply Hb]; rewrite E; reflexivity.
Qed.

Lemma scale_result_p_value (self : TTest.t)
  (r0 r : FrequentistTestResult.t) (p d : R) :
  TTest.scale_result self r0 p d = Ok r ->
  FrequentistTestResult.p_value r = 1
  \/ FrequentistTestResult.p_value r = FrequentistTestResult.p_value r0.
Proof.
  unfold TTest.scale_result. destruct (Reqb p 0).
  - intros [= <-]. now left.
  - intros H.
    apply bind_ok_inv in H. destruct H as (a & _ & H).
    apply bind_ok_inv in H. destruct H as (adj & _ & H).
    injection H as <-. now right.
Qed.

(** Whatever [compute_result] returns carries a p-value in [0, 1]. *)
Lemma compute_result_p_value_unit (S : Scipy) (L : ScipyLaws S)
  (self : TTest.t) (r : FrequentistTestResult.t) :
  counts_at_least 1 self ->
  (forall tuning, TTest.kind self = SequentialTwoSided tuning ->
                  0 < TTest.alpha self < 1 /\ 0 < tuning) ->
  TTest.compute_result self = Ok r ->
  0 <= FrequentistTestResult.p_value r <= 1.
Proof.
  intros Hn Hseq. unfold TTest.compute_result.
  destruct (Reqb (TestStatistic.mean (TTest.stat_a self)) 0) eqn:Em;
    [intros [= <-]; cbn; lra |].
  destruct (Reqb (TestStatistic.unadjusted_mean (TTest.stat_a self)) 0)
    eqn:Eu; [intros [= <-]; cbn; lra |].
  destruct (TTest._has_zero_variance self) eqn:Ev;
    [intros [= <-]; cbn; lra |].
  apply Reqb_neq in Em, Eu. apply has_zero_variance_false in Ev.
  assert (Hnd : nondegenerate self) by (unfold nondegenerate; tauto).
  intros H. apply bind_ok_inv in H. destruct H as (r0 & H0 & H).
  assert (P0 : 0 <= FrequentistTestResult.p_value r0 <= 1).
  { unfold TTest.unscaled_result in H0.
    apply bind_ok_inv in H0. destruct H0 as (pe & _ & H0).
    apply bind_ok_inv in H0. destruct H0 as (ci & _ & H0).
    apply bind_ok_inv in H0. destruct H0 as (p & Hp & H0).
    apply bind_ok_inv in H0. destruct H0 as (v & _ & H0).
    apply bind_ok_inv in H0. destruct H0 as (s & _ & H0).
    injection H0 as <-. cbn.
    destruct (TTest.kind self) as [| | | tuning] eqn:Hk.
    4:{ destruct (Hseq tuning eq_refl) as (Ha & Ht).
        destruct (sequential_p_value_unit S self tuning Hk Hnd Hn Ha Ht)
          as (p' & Hp' & Pp').
        rewrite Hp in Hp'. now injection Hp' as <-. }
    all: assert (Hn2 : counts_at_least 2 self)
      by (pose proof Hp as Hd; unfold TTest.p_value in Hd; rewrite Hk in Hd;
          apply bind_ok_inv in Hd; destruct Hd as (c & _ & Hd);
          apply bind_ok_inv in Hd; destruct Hd as (d & Hd & _);
          apply dof_defined_counts in Hd; destruct Hn, Hd; split; lia).
    all: destruct (fixed_p_value_unit S L self) as (p' & Hp' & Pp');
      [rewrite Hk; tauto | assumption | assumption |].
    all: rewrite Hp in Hp'; now injection Hp' as <-. }
  destruct (TTest.scaled self).
  - apply scale_result_p_value in H. destruct H as [-> | ->]; lra.
  - now injection H as <-.
Qed.

(** C8: on valid, non-degenerate inputs every p-value lies in [0, 1]: the
    two-sided [2 * (1 - F_t(|criticalValue|, dof))], the two one-sided ones,
    the sequential [min(1 / evalue, 1)], the p-value inside whatever
    [compute_result] returns, and the sample-ratio-mismatch p-value. *)
Theorem C8_p_values_in_unit_interval :
  forall (S : Scipy), ScipyLaws S ->
    (forall self : TTest.t,
        TTest.kind self = TwoSided
        \/ TTest.kind self = OneSidedTreatmentGreater
        \/ TTest.kind self = OneSidedTreatmentLesser ->
        nondegenerate self -> counts_at_least 2 self ->
        exists p, TTest.p_value self = Ok p /\ 0 <= p <= 1)
    /\ (forall (self : TTest.t) (tuning : R),
           TTest.kind self = SequentialTwoSided tuning ->
           nondegenerate self -> counts_at_least 1 self ->
           0 < TTest.alpha self < 1 -> 0 < tuning ->
           exists p, TTest.p_value self = Ok p /\ 0 <= p <= 1)
    /\ (forall (self : TTest.t) (r : FrequentistTestResult.t),
           counts_at_least 1 self ->
           (forall tuning, TTest.kind self = SequentialTwoSided tuning ->
                           0 < TTest.alpha self < 1 /\ 0 < tuning) ->
           TTest.compute_result self = Ok r ->
           0 <= FrequentistTestResult.p_value r <= 1)
    /\ (forall (users : list Z) (weights : list R),
           (2 <= List.length users <= List.length weights)%nat ->
           sum_float weights <> 0 ->
           exists p, check_srm users weights = Ok p /\ 0 <= p <= 1).
Proof.
  intros S L. split; [| split; [| split]].
  - intros self. now apply fixed_p_value_unit.
  - intros self tuning. now apply sequential_p_value_unit.
  - intros self r. now apply compute_result_p_value_unit.
  - intros users weights. now apply check_srm_unit.
Qed.

Lemma point_mass_laws : ScipyLaws point_mass.
Proof.
  split; cbn.
  - intros x dof _. destruct (Rleb 0 x); lra.
  - intros x dof _ Hx. apply Rleb_le in Hx. rewrite Hx. lra.
  - intros x k _. destruct (Rltb 0 x); lra.
Qed.

Lemma healthy_scaled_nondegenerate : nondegenerate healthy_scaled_test.
Proof. unfold nondegenerate; cbn; repeat split; lra. Qed.

Lemma healthy_scaled_counts : counts_at_least 2 healthy_scaled_test.
Proof. unfold counts_at_least; cbn; lia. Qed.

Lemma sample_weights_sum : sum_float sample_weights <> 0.
Proof. cbn. lra. Qed.

Lemma sample_lengths :
  (2 <= List.length sample_users <= List.length sample_weights)%nat.
Proof. cbn. lia. Qed.

Lemma C8_p_values_in_unit_interval_witness :
  ScipyLaws point_mass
  /\ (exists p,
         @TTest.p_value point_mass healthy_scaled_test = Ok p
         /\ 0 <= p <= 1)
  /\ (exists p,
         @TTest.p_value point_mass healthy_sequential_test = Ok p
         /\ 0 <= p <= 1)
  /\ (exists p,
         @check_srm point_mass sample_users sample_weights = Ok p
         /\ 0 <= p <= 1).
Proof.
  assert (Ht : 0 < 5000) by lra.
  split; [exact point_mass_laws |].
  destruct (C8_p_values_in_unit_interval point_mass point_mass_laws)
    as (Hfixed & Hseq & _ & Hsrm).
  split; [| split].
  - exact (Hfixed healthy_scaled_test (or_introl eq_refl)
             healthy_scaled_nondegenerate healthy_scaled_counts).
  - exact (Hseq healthy_sequential_test 5000 eq_refl
             healthy_sequential_nondegenerate healthy_sequential_counts
             healthy_sequential_alpha Ht).
  - exact (Hsrm sample_users sample_weights sample_lengths
             sample_weights_sum).
Defined.

(** ** The unscaled result exists on valid inputs *)

Lemma fixed_interval_defined (S : Scipy) (self : TTest.t) :
  TTest.kind self = TwoSided
  \/ TTest.kind self = OneSidedTreatmentGreater
  \/ TTest.kind self = OneSidedTreatmentLesser ->
  nondegenerate self -> counts_at_least 2 self ->
  exists ci, TTest.confidence_interval self = Ok ci.
Proof.
  intros Hk Hnd Hn.
  assert (Hn1 : counts_at_least 1 self) by (destruct Hn; split; lia).
  destruct (dof_positive self Hnd Hn) as (d & Hd & _).
  destruct (variance_positive self Hnd Hn1) as (v & Hv & Pv).
  pose proof Hnd as (_ & Hu & _).
  unfold TTest.confidence_interval.
  destruct Hk as [Hk | [Hk | Hk]];
    rewrite Hk, Hd, Hv; cbn [bind]; checked;
    rewrite point_estimate_value by assumption; cbn [bind]; now eexists.
Qed.

Lemma fixed_unscaled_result_defined (S : Scipy) (L : ScipyLaws S)
  (self : TTest.t) :
  TTest.kind self = TwoSided
  \/ TTest.kind self = OneSidedTreatmentGreater
  \/ TTest.kind self = OneSidedTreatmentLesser ->
  nondegenerate self -> counts_at_least 2 self ->
  exists r0, TTest.unscaled_result self = Ok r0.
Proof.
  intros Hk Hnd Hn.
  assert (Hn1 : counts_at_least 1 self) by (destruct Hn; split; lia).
  destruct (fixed_interval_defined S self Hk Hnd Hn) as (ci & Hci).
  destruct (fixed_p_value_unit S L self Hk Hnd Hn) as (p & Hp & _).
  destruct (variance_positive self Hnd Hn1) as (v & Hv & Pv).
  pose proof Hnd as (_ & Hu & _).
  unfold TTest.unscaled_result.
  rewrite point_estimate_value, Hci, Hp, Hv by assumption.
  cbn [bind]. checked. now eexists.
Qed.

Lemma C5_scaled_result_witness :
  (TTest.scaled healthy_scaled_test = true
   /\ TTest.traffic_proportion_b healthy_scaled_test <> 0
   /\ nondegenerate healthy_scaled_test
   /\ TTest.phase_length_days healthy_scaled_test <> 0)
  /\ exists r0,
      @TTest.unscaled_result point_mass healthy_scaled_test = Ok r0
      /\ @TTest.compute_result point_mass healthy_scaled_test
         = Ok (scaled_by r0 (IZR 1000 / (1 / 2) / 10)).
Proof.
  assert (Hp : TTest.traffic_proportion_b healthy_scaled_test <> 0)
    by (cbn; lra).
  assert (Hd : TTest.phase_length_days healthy_scaled_test <> 0)
    by (cbn; lra).
  pose proof healthy_scaled_nondegenerate as Hnd.
  split; [repeat split; solve [reflexivity | assumption | apply Hnd] |].
  destruct (fixed_unscaled_result_defined point_mass point_mass_laws
              healthy_scaled_test (or_introl eq_refl) Hnd
              healthy_scaled_counts) as (r0 & Hr).
  exists r0. split; [exact Hr |].
  exact (proj1 (C5_scaled_result point_mass healthy_scaled_test r0
                  eq_refl Hp Hnd Hr) Hd).
Defined.

(** ** The chi-squared statistic of check_srm *)

Lemma srm_term_skipped (total_weight : R) (total_observed o : Z) (w : R) :
  w <= 0 -> srm_term total_weight total_observed o w = 0.
Proof. intros Hw. unfold srm_term. apply Rleb_le in Hw. now rewrite Hw. Qed.

Lemma skipn_nth_error {A : Type} (l : list A) (i : nat) (a : A) :
  nth_error l i = Some a -> skipn i l = a :: skipn (S i) l.
Proof.
  revert i. induction l as [| b l IH]; intros [| i] H; try discriminate.
  - now injection H as ->.
  - cbn in H. apply IH in H. exact H.
Qed.

Lemma check_srm_loop_skip (weights : list R) (total_weight : R)
  (total_observed : Z) (i : nat) (o : Z) (rest : list Z) (x w : R) :
  nth_error weights i = Some w -> w <= 0 ->
  check_srm_loop weights total_weight total_observed i (o :: rest) x
  = check_srm_loop weights total_weight total_observed (S i) rest x.
Proof.
  intros Hi Hw. cbn [check_srm_loop]. unfold py_index. rewrite Hi.
  cbn [bind]. apply Rleb_le in Hw. now rewrite Hw.
Qed.

(** The loop adds up the arms' contributions, from index [i] on. *)
Lemma check_srm_loop_statistic (weights : list R) (total_weight : R)
  (total_observed : Z) (users : list Z) :
  total_weight <> 0 -> total_observed <> 0%Z ->
  forall (i : nat) (x : R),
    (i + List.length users <= List.length weights)%nat ->
    check_srm_loop weights total_weight total_observed i users x
    = Ok (x + srm_statistic total_weight total_observed users
                (skipn i weights)).
Proof.
  intros Hw Ho. induction users as [| o rest IH]; intros i x Hlen.
  - cbn. f_equal. ring.
  - cbn [List.length] in Hlen.
    destruct (nth_error weights i) as [w |] eqn:Ew.
    2:{ apply nth_error_None in Ew. lia. }
    rewrite (skipn_nth_error _ _ _ Ew). cbn [srm_statistic].
    destruct (Rle_dec w 0) as [Hle | Hgt].
    + rewrite (check_srm_loop_skip _ _ _ _ _ _ _ _ Ew Hle), IH by lia.
      rewrite srm_term_skipped by assumption. f_equal. ring.
    + cbn [check_srm_loop]. unfold py_index. rewrite Ew. cbn [bind].
      unfold srm_term.
      assert (E : Rleb w 0 = false) by (apply Rleb_gt; lra).
      rewrite E.
      assert (He : w / total_weight * IZR total_observed <> 0).
      { apply Rmult_integral_contrapositive_currified.
        - unfold Rdiv. apply Rmult_integral_contrapositive_currified;
            [lra | now apply Rinv_neq_0_compat].
        - now apply not_0_IZR. }
      checked. rewrite IH by lia. f_equal. ring.
Qed.

(** C7: with a non-zero total, an index whose weight is zero or negative is
    skipped by the loop and adds 0 to the chi-squared statistic, and the
    degrees of freedom handed to [chi2.sf] are [len(users) - 1], skipped
    arms included. *)
Theorem C7_check_srm_statistic :
  forall (scipy : Scipy) (users : list Z) (weights : list R),
    sum_int users <> 0%Z ->
    let total_observed := sum_int users in
    let total_weight := sum_float weights in
    (forall (i : nat) (o : Z) (rest : list Z) (x w : R),
        nth_error weights i = Some w -> w <= 0 ->
        check_srm_loop weights total_weight total_observed i (o :: rest) x
        = check_srm_loop weights total_weight total_observed (S i) rest x)
    /\ (forall (o : Z) (w : R),
           w <= 0 -> srm_term total_weight total_observed o w = 0)
    /\ (forall p,
           check_srm users weights = Ok p ->
           exists x,
             check_srm_loop weights total_weight total_observed 0 users 0
             = Ok x
             /\ p = chi2_sf x (Z.of_nat (List.length users) - 1))
    /\ ((List.length users <= List.length weights)%nat ->
        total_weight <> 0 ->
        check_srm users weights
        = Ok (chi2_sf
                (srm_statistic total_weight total_observed users weights)
                (Z.of_nat (List.length users) - 1))).
Proof.
  intros scipy users weights Hsum total_observed total_weight.
  assert (E : (sum_int users =? 0)%Z = false) by (now apply Z.eqb_neq).
  split; [| split; [| split]].
  - intros i o rest x w. apply check_srm_loop_skip.
  - intros o w. apply srm_term_skipped.
  - intros p. unfold check_srm. rewrite E. intros H.
    apply bind_ok_inv in H. destruct H as (x & Hx & H).
    exists x. split; [exact Hx | now injection H].
  - intros Hlen Hw. unfold check_srm. rewrite E.
    rewrite check_srm_loop_statistic by (try assumption; cbn; lia).
    cbn [bind skipn]. fold total_weight total_observed.
    now rewrite Rplus_0_l.
Qed.

Lemma idle_arm_total : sum_int users_with_idle_arm <> 0%Z.
Proof. cbn. lia. Qed.

Lemma idle_arm_lengths :
  (List.length users_with_idle_arm <= List.length weights_with_idle_arm)%nat.
Proof. cbn. lia. Qed.

Lemma idle_arm_weight : sum_float weights_with_idle_arm <> 0.
Proof. cbn. lra. Qed.

Lemma C7_check_srm_statistic_witness :
  sum_int users_with_idle_arm <> 0%Z
  /\ @check_srm point_mass users_with_idle_arm weights_with_idle_arm
     = Ok (@chi2_sf point_mass
             (srm_statistic (sum_float weights_with_idle_arm)
                (sum_int users_with_idle_arm)
                users_with_idle_arm weights_with_idle_arm)
             (Z.of_nat (List.length users_with_idle_arm) - 1)).
Proof.
  split; [exact idle_arm_total |].
  exact (proj2 (proj2 (proj2
           (C7_check_srm_statistic point_mass users_with_idle_arm
              weights_with_idle_arm idle_arm_total)))
           idle_arm_lengths idle_arm_weight).
Defined.

(** * Further properties of utils.py *)

(** ** variance_of_ratios *)

Lemma variance_of_ratios_value (mean_m var_m mean_d var_d cov_m_d : R) :
  mean_d <> 0 ->
  variance_of_ratios mean_m var_m mean_d var_d cov_m_d
  = Ok (var_m / mean_d ^ 2 + var_d * mean_m ^ 2 / mean_d ^ 4
        - 2 * cov_m_d * mean_m / mean_d ^ 3).
Proof.
  intros Hd. unfold variance_of_ratios.
  assert (H2 : mean_d ^ 2 <> 0) by (now apply pow_nonzero).
  assert (H3 : mean_d ^ 3 <> 0) by (now apply pow_nonzero).
  assert (H4 : mean_d ^ 4 <> 0) by (now apply pow_nonzero).
  now checked.
Qed.

Lemma variance_of_ratios_zero_denominator (mean_m var_m var_d cov_m_d : R) :
  variance_of_ratios mean_m var_m 0 var_d cov_m_d = Raise ZeroDivisionError.
Proof.
  unfold variance_of_ratios.
  replace (0 ^ 2) with 0 by ring. now rewrite py_div_zero.
Qed.





(** X3: the ratio variance does not change when numerator and denominator
    are rescaled by the same non-zero factor [k] (means by [k], variances
    and covariance by [k^2]); both sides raise together. *)
Theorem X3_variance_of_ratios_scale_invariant :
  forall k mean_m var_m mean_d var_d cov_m_d : R,
    k <> 0 ->
    variance_of_ratios (k * mean_m) (k ^ 2 * var_m) (k * mean_d)
      (k ^ 2 * var_d) (k ^ 2 * cov_m_d)
    = variance_of_ratios mean_m var_m mean_d var_d cov_m_d.
Proof.
  intros k m vm d vd c Hk.
  destruct (Req_dec_T d 0) as [Z | NZ].
  - subst d. rewrite Rmult_0_r.
    now rewrite !variance_of_ratios_zero_denominator.
  - assert (Hkd : k * d <> 0) by (now apply Rmult_integral_contrapositive).
    rewrite !variance_of_ratios_value by assumption.
    f_equal. field. split; assumption.
Qed.

Lemma X3_variance_of_ratios_scale_invariant_witness :
  10 <> 0
  /\ variance_of_ratios (10 * 1) (10 ^ 2 * 3) (10 * 2) (10 ^ 2 * 5)
       (10 ^ 2 * 1)
     = variance_of_ratios 1 3 2 5 1.
Proof.
  assert (H : 10 <> 0) by lra.
  split; [exact H |].
  exact (X3_variance_of_ratios_scale_invariant 10 1 3 2 5 1 H).
Defined.

(** ** check_srm: what it raises *)

Lemma srm_expected_nonzero (w total_weight : R) (total_observed : Z) :
  0 < w -> total_weight <> 0 -> total_observed <> 0%Z ->
  w / total_weight * IZR total_observed <> 0.
Proof.
  intros Hw Ht Ho. apply Rmult_integral_contrapositive_currified.
  - unfold Rdiv. apply Rmult_integral_contrapositive_currified;
      [lra | now apply Rinv_neq_0_compat].
  - now apply not_0_IZR.
Qed.

Lemma check_srm_loop_short_weights (weights : list R) (total_weight : R)
  (total_observed : Z) (users : list Z) :
  total_weight <> 0 -> total_observed <> 0%Z ->
  forall (i : nat) (x : R),
    (i <= List.length weights < i + List.length users)%nat ->
    check_srm_loop weights total_weight total_observed i users x
    = Raise IndexError.
Proof.
  intros Hw Ho. induction users as [| o rest IH]; intros i x Hlen.
  - cbn in Hlen. lia.
  - cbn [List.length] in Hlen. cbn [check_srm_loop]. unfold py_index.
    destruct (nth_error weights i) as [w |] eqn:Ew; [| reflexivity].
    assert (Hi : (i < List.length weights)%nat)
      by (apply nth_error_Some; congruence).
    cbn [bind]. destruct (Rleb w 0) eqn:E; [apply IH; lia |].
    apply Rleb_gt in E.
    pose proof (srm_expected_nonzero w total_weight total_observed E Hw Ho).
    checked. apply IH. lia.
Qed.

(** X4: with a non-zero total count and a non-zero total weight, fewer
    weights than counts make [check_srm] raise an [IndexError]. *)
Theorem X4_check_srm_short_weights :
  forall (scipy : Scipy) (users : list Z) (weights : list R),
    sum_int users <> 0%Z ->
    sum_float weights <> 0 ->
    (List.length weights < List.length users)%nat ->
    check_srm users weights = Raise IndexError.
Proof.
  intros scipy users weights Hsum Hw Hlen. unfold check_srm.
  apply Z.eqb_neq in Hsum as E. rewrite E.
  rewrite check_srm_loop_short_weights by (try assumption; lia).
  reflexivity.
Qed.

Lemma X4_check_srm_short_weights_witness :
  (sum_int [10; 20; 30]%Z <> 0%Z
   /\ sum_float [1; 1] <> 0
   /\ (List.length [1; 1]%R < List.length [10; 20; 30]%Z)%nat)
  /\ @check_srm point_mass [10; 20; 30]%Z [1; 1] = Raise IndexError.
Proof.
  assert (H1 : sum_int [10; 20; 30]%Z <> 0%Z) by (cbn; lia).
  assert (H2 : sum_float [1; 1] <> 0) by (cbn; lra).
  assert (H3 : (List.length [1; 1]%R < List.length [10; 20; 30]%Z)%nat)
    by (cbn; lia).
  split; [repeat split; assumption |].
  exact (X4_check_srm_short_weights point_mass _ _ H1 H2 H3).
Defined.

Lemma check_srm_loop_zero_total_weight (weights : list R)
  (total_observed : Z) (users : list Z) :
  forall (i j : nat) (x w : R),
    (j < List.length users)%nat ->
    nth_error weights (i + j) = Some w -> 0 < w ->
    check_srm_loop weights 0 total_observed i users x
    = Raise ZeroDivisionError.
Proof.
  induction users as [| o rest IH]; intros i j x w Hj Hn Hw.
  - cbn in Hj. lia.
  - cbn [List.length] in Hj. cbn [check_srm_loop]. unfold py_index.
    destruct (nth_error weights i) as [w0 |] eqn:E0.
    2:{ apply nth_error_None in E0.
        assert ((i + j < List.length weights)%nat)
          by (apply nth_error_Some; congruence).
        lia. }
    cbn [bind]. destruct (Rleb w0 0) eqn:E.
    + destruct j as [| j].
      * rewrite Nat.add_0_r in Hn. apply Rleb_le in E.
        assert (w0 = w) by congruence. lra.
      * apply (IH (S i) j x w); [lia | | exact Hw].
        now replace (S i + j)%nat with (i + S j)%nat by lia.
    + now rewrite py_div_zero.
Qed.

(** X5: when the weights sum to zero although an arm within the counts
    has a positive weight, [check_srm] raises a [ZeroDivisionError]. *)
Theorem X5_check_srm_zero_total_weight :
  forall (scipy : Scipy) (users : list Z) (weights : list R) (j : nat)
         (w : R),
    sum_int users <> 0%Z ->
    sum_float weights = 0 ->
    (j < List.length users)%nat ->
    nth_error weights j = Some w ->
    0 < w ->
    check_srm users weights = Raise ZeroDivisionError.
Proof.
  intros scipy users weights j w Hsum Hw Hj Hn Pw. unfold check_srm.
  apply Z.eqb_neq in Hsum as E. rewrite E, Hw.
  now rewrite (check_srm_loop_zero_total_weight weights _ users 0 j 0 w).
Qed.

Lemma X5_check_srm_zero_total_weight_witness :
  (sum_int [10; 20]%Z <> 0%Z
   /\ sum_float [-1; 1] = 0
   /\ (1 < List.length [10; 20]%Z)%nat
   /\ nth_error [-1; 1] 1 = Some 1
   /\ 0 < 1)
  /\ @check_srm point_mass [10; 20]%Z [-1; 1] = Raise ZeroDivisionError.
Proof.
  assert (H1 : sum_int [10; 20]%Z <> 0%Z) by (cbn; lia).
  assert (H2 : sum_float [-1; 1] = 0) by (cbn; lra).
  assert (H3 : (1 < List.length [10; 20]%Z)%nat) by (cbn; lia).
  assert (H4 : nth_error [-1; 1] 1 = Some 1) by reflexivity.
  assert (H5 : 0 < 1) by lra.
  split; [repeat split; assumption |].
  exact (X5_check_srm_zero_total_weight point_mass _ _ 1%nat 1 H1 H2 H3 H4 H5).
Defined.

Lemma check_srm_loop_no_positive_weight (weights : list R)
  (total_weight : R) (total_observed : Z) (users : list Z) :
  Forall (fun w => w <= 0) weights ->
  forall (i : nat) (x : R),
    (i + List.length users <= List.length weights)%nat ->
    check_srm_loop weights total_weight total_observed i users x = Ok x.
Proof.
  intros Hall. induction users as [| o rest IH]; intros i x Hlen.
  - reflexivity.
  - cbn [List.length] in Hlen.
    destruct (nth_error weights i) as [w |] eqn:Ew.
    2:{ apply nth_error_None in Ew. lia. }
    assert (Hw : w <= 0).
    { rewrite Forall_forall in Hall. apply Hall.
      eapply nth_error_In. exact Ew. }
    rewrite (check_srm_loop_skip _ _ _ _ _ _ _ _ Ew Hw). apply IH. lia.
Qed.

(** X6: when no weight is positive, every arm is skipped: no division is
    done, even if the weights sum to zero, and the p-value is
    [chi2.sf(0, len(users) - 1)] whatever the counts are. *)
Theorem X6_check_srm_no_positive_weight :
  forall (scipy : Scipy) (users : list Z) (weights : list R),
    sum_int users <> 0%Z ->
    (List.length users <= List.length weights)%nat ->
    Forall (fun w => w <= 0) weights ->
    check_srm users weights
    = Ok (chi2_sf 0 (Z.of_nat (List.length users) - 1)).
Proof.
  intros scipy users weights Hsum Hlen Hall. unfold check_srm.
  apply Z.eqb_neq in Hsum as E. rewrite E.
  now rewrite check_srm_loop_no_positive_weight by (try assumption; lia).
Qed.

Lemma X6_check_srm_no_positive_weight_witness :
  (sum_int [10; 20]%Z <> 0%Z
   /\ (List.length [10; 20]%Z <= List.length [0; 0]%R)%nat
   /\ Forall (fun w => w <= 0) [0; 0])
  /\ @check_srm point_mass [10; 20]%Z [0; 0]
     = Ok (@chi2_sf point_mass 0 (Z.of_nat (List.length [10; 20]%Z) - 1)).
Proof.
  assert (H1 : sum_int [10; 20]%Z <> 0%Z) by (cbn; lia).
  assert (H2 : (List.length [10; 20]%Z <= List.length [0; 0]%R)%nat)
    by (cbn; lia).
  assert (H3 : Forall (fun w => w <= 0) [0; 0])
    by (repeat constructor; lra).
  split; [repeat split; assumption |].
  exact (X6_check_srm_no_positive_weight point_mass _ _ H1 H2 H3).
Defined.

(** ** check_srm: the statistic *)

Lemma sum_float_scaled_from (k : R) (l : list R) (acc : R) :
  fold_left Rplus (map (Rmult k) l) (k * acc) = k * fold_left Rplus l acc.
Proof.
  revert acc. induction l as [| a l IH]; intros acc; [reflexivity |].
  cbn [map fold_left]. rewrite <- IH. f_equal. ring.
Qed.

Lemma sum_float_scaled (k : R) (l : list R) :
  sum_float (map (Rmult k) l) = k * sum_float l.
Proof.
  unfold sum_float. rewrite <- sum_float_scaled_from. f_equal. ring.
Qed.

Lemma check_srm_loop_scaled (k : R) (weights : list R) (total_weight : R)
  (total_observed : Z) (users : list Z) :
  0 < k ->
  forall (i : nat) (x : R),
    check_srm_loop (map (Rmult k) weights) (k * total_weight)
      total_observed i users x
    = check_srm_loop weights total_weight total_observed i users x.
Proof.
  intros Hk. induction users as [| o rest IH]; intros i x; [reflexivity |].
  cbn [check_srm_loop]. unfold py_index. rewrite nth_error_map.
  destruct (nth_error weights i) as [w |]; [| reflexivity].
  cbn [option_map bind].
  assert (E : Rleb (k * w) 0 = Rleb w 0).
  { destruct (Rleb w 0) eqn:Ew.
    - apply Rleb_le in Ew. apply Rleb_le. nra.
    - apply Rleb_gt in Ew. apply Rleb_gt. nra. }
  rewrite E. destruct (Rleb w 0); [apply IH |].
  destruct (Req_dec_T total_weight 0) as [Z | NZ].
  - subst total_weight. rewrite Rmult_0_r. now rewrite !py_div_zero.
  - assert (Hkt : k * total_weight <> 0) by nra.
    rewrite !py_div_ok by assumption. cbn [bind].
    replace (k * w / (k * total_weight)) with (w / total_weight)
      by (field; split; lra).
    destruct (py_div _ _); cbn [bind]; [apply IH | reflexivity ..].
Qed.

(** X7: only the proportions of the weights matter: multiplying every
    weight by the same positive factor leaves the outcome of [check_srm]
    as it is, exceptions included. *)
Theorem X7_check_srm_weights_scale :
  forall (scipy : Scipy) (k : R) (users : list Z) (weights : list R),
    0 < k ->
    check_srm users (map (Rmult k) weights) = check_srm users weights.
Proof.
  intros scipy k users weights Hk. unfold check_srm.
  destruct (sum_int users =? 0)%Z; [reflexivity |].
  now rewrite sum_float_scaled, check_srm_loop_scaled.
Qed.

Lemma X7_check_srm_weights_scale_witness :
  0 < 50
  /\ @check_srm point_mass [10; 20]%Z (map (Rmult 50) [1; 3])
     = @check_srm point_mass [10; 20]%Z [1; 3].
Proof.
  assert (H : 0 < 50) by lra.
  split; [exact H |].
  exact (X7_check_srm_weights_scale point_mass 50 _ _ H).
Defined.

Lemma srm_term_nonnegative (total_weight : R) (total_observed o : Z)
  (w : R) :
  0 < total_weight -> (0 < total_observed)%Z ->
  0 <= srm_term total_weight total_observed o w.
Proof.
  intros Hw Ho. unfold srm_term.
  destruct (Rleb w 0) eqn:E; [lra |]. apply Rleb_gt in E.
  assert (Ht : 0 < IZR total_observed) by (now apply (IZR_lt 0)).
  assert (He : 0 < w / total_weight * IZR total_observed).
  { apply Rmult_lt_0_compat; [| exact Ht]. now apply Rdiv_lt_0_compat. }
  apply Rmult_le_pos; [apply pow2_ge_0 | left; now apply Rinv_0_lt_compat].
Qed.

Lemma srm_statistic_nonnegative (total_weight : R) (total_observed : Z)
  (users : list Z) (weights : list R) :
  0 < total_weight -> (0 < total_observed)%Z ->
  0 <= srm_statistic total_weight total_observed users weights.
Proof.
  intros Hw Ho. revert weights.
  induction users as [| o rest IH]; intros [| w weights]; cbn; try lra.
  pose proof (srm_term_nonnegative total_weight total_observed o w Hw Ho).
  specialize (IH weights). lra.
Qed.

(** X8: for a positive total count and a positive total weight, with a
    weight for every count, [check_srm] raises nothing and the statistic it
    hands to [chi2.sf] is not negative. *)
Theorem X8_check_srm_statistic_nonnegative :
  forall (scipy : Scipy) (users : list Z) (weights : list R),
    (0 < sum_int users)%Z ->
    0 < sum_float weights ->
    (List.length users <= List.length weights)%nat ->
    exists x,
      check_srm users weights
      = Ok (chi2_sf x (Z.of_nat (List.length users) - 1))
      /\ 0 <= x.
Proof.
  intros scipy users weights Hsum Hw Hlen.
  exists (srm_statistic (sum_float weights) (sum_int users) users weights).
  split; [| now apply srm_statistic_nonnegative].
  unfold check_srm.
  assert (E : (sum_int users =? 0)%Z = false) by (apply Z.eqb_neq; lia).
  rewrite E, check_srm_loop_statistic by (try lra; try lia; cbn; lia).
  cbn [bind skipn]. now rewrite Rplus_0_l.
Qed.

Lemma X8_check_srm_statistic_nonnegative_witness :
  ((0 < sum_int sample_users)%Z
   /\ 0 < sum_float sample_weights
   /\ (List.length sample_users <= List.length sample_weights)%nat)
  /\ exists x,
      @check_srm point_mass sample_users sample_weights
      = Ok (@chi2_sf point_mass x (Z.of_nat (List.length sample_users) - 1))
      /\ 0 <= x.
Proof.
  assert (H1 : (0 < sum_int sample_users)%Z) by (cbn; lia).
  assert (H2 : 0 < sum_float sample_weights) by (cbn; lra).
  assert (H3 : (List.length sample_users <= List.length sample_weights)%nat)
    by (cbn; lia).
  split; [repeat split; assumption |].
  exact (X8_check_srm_statistic_nonnegative point_mass _ _ H1 H2 H3).
Defined.

Lemma srm_statistic_exact_split (total_weight : R) (total_observed : Z)
  (users : list Z) (weights : list R) :
  Forall2 (fun o w => w <= 0
                      \/ IZR o = w / total_weight * IZR total_observed)
    users weights ->
  srm_statistic total_weight total_observed users weights = 0.
Proof.
  induction 1 as [| o w users weights Hw _ IH]; [reflexivity |].
  cbn [srm_statistic]. rewrite IH, Rplus_0_r. unfold srm_term.
  destruct (Rleb w 0) eqn:E; [reflexivity |]. apply Rleb_gt in E.
  destruct Hw as [Hw | Hw]; [lra |].
  rewrite Hw. unfold Rdiv. ring.
Qed.

(** X9: when every arm with a positive weight has exactly its expected
    share of the total count, the statistic is 0 and the p-value is
    [chi2.sf(0, len(users) - 1)]. *)
Theorem X9_check_srm_exact_split :
  forall (scipy : Scipy) (users : list Z) (weights : list R),
    sum_int users <> 0%Z ->
    sum_float weights <> 0 ->
    Forall2 (fun o w => w <= 0
                        \/ IZR o
                           = w / sum_float weights * IZR (sum_int users))
      users weights ->
    check_srm users weights
    = Ok (chi2_sf 0 (Z.of_nat (List.length users) - 1)).
Proof.
  intros scipy users weights Hsum Hw Hall. unfold check_srm.
  apply Z.eqb_neq in Hsum as E. rewrite E.
  pose proof (Forall2_length Hall) as Hlen.
  rewrite check_srm_loop_statistic by (try assumption; cbn; lia).
  cbn [bind skipn]. now rewrite srm_statistic_exact_split, Rplus_0_l.
Qed.

Lemma X9_check_srm_exact_split_witness :
  (sum_int [10; 30; 0]%Z <> 0%Z
   /\ sum_float [1; 3; 0] <> 0
   /\ Forall2 (fun o w => w <= 0
                          \/ IZR o
                             = w / sum_float [1; 3; 0]
                               * IZR (sum_int [10; 30; 0]%Z))
        [10; 30; 0]%Z [1; 3; 0])
  /\ @check_srm point_mass [10; 30; 0]%Z [1; 3; 0]
     = Ok (@chi2_sf point_mass 0
             (Z.of_nat (List.length [10; 30; 0]%Z) - 1)).
Proof.
  assert (H1 : sum_int [10; 30; 0]%Z <> 0%Z) by (cbn; lia).
  assert (H2 : sum_float [1; 3; 0] <> 0) by (cbn; lra).
  assert (H3 : Forall2 (fun o w => w <= 0
                          \/ IZR o
                             = w / sum_float [1; 3; 0]
                               * IZR (sum_int [10; 30; 0]%Z))
                 [10; 30; 0]%Z [1; 3; 0]).
  { repeat constructor; cbn; lra. }
  split; [repeat split; assumption |].
  exact (X9_check_srm_exact_split point_mass _ _ H1 H2 H3).
Defined.

(** * Further properties of tests.py *)

(** ** The two helpers *)

(** X10: [frequentist_diff] raises exactly when a relative difference is
    asked for, [mean_a] is zero and the unadjusted mean is absent or zero;
    an absolute difference is [mean_b - mean_a] whatever the unadjusted
    mean is, and a relative one over a non-zero unadjusted mean [u] is
    [(mean_b - mean_a) / u]. *)
Theorem X10_frequentist_diff_raises_iff :
  forall (mean_a mean_b : R) (relative : bool)
         (mean_a_unadjusted : option R),
    (frequentist_diff mean_a mean_b relative mean_a_unadjusted
     = Raise ZeroDivisionError
     <-> relative = true /\ mean_a = 0
         /\ (mean_a_unadjusted = None \/ mean_a_unadjusted = Some 0))
    /\ frequentist_diff mean_a mean_b false mean_a_unadjusted
       = Ok (mean_b - mean_a)
    /\ (forall u, u <> 0 ->
          frequentist_diff mean_a mean_b true (Some u)
          = Ok ((mean_b - mean_a) / u)).
Proof.
  intros a b rel u. split; [| split].
  - unfold frequentist_diff. destruct rel.
    2:{ split; [discriminate | intros (H & _); discriminate H]. }
    destruct u as [v |]; cbn [py_not].
    + destruct (Reqb v 0) eqn:Ev.
      * apply Reqb_eq in Ev. subst v. split.
        -- intros H. destruct (Req_dec_T a 0) as [Z | NZ]; [now auto |].
           rewrite py_div_ok in H by assumption. discriminate H.
        -- intros (_ & -> & _). apply py_div_zero.
      * apply Reqb_neq in Ev. rewrite py_div_ok by assumption. split.
        -- discriminate.
        -- intros (_ & _ & [H | H]); [discriminate H |].
           injection H as H. contradiction.
    + split.
      * intros H. destruct (Req_dec_T a 0) as [Z | NZ]; [now auto |].
        rewrite py_div_ok in H by assumption. discriminate H.
      * intros (_ & -> & _). apply py_div_zero.
  - unfold frequentist_diff. reflexivity.
  - intros v Hv. unfold frequentist_diff. cbn [py_not].
    rewrite (proj2 (Reqb_neq v 0) Hv). now apply py_div_ok.
Qed.

Lemma X10_frequentist_diff_raises_iff_witness :
  (true = true /\ 0 = 0 /\ (Some 0 = None \/ Some 0 = Some 0))
  /\ frequentist_diff 0 3 true (Some 0) = Raise ZeroDivisionError.
Proof.
  assert (H : true = true /\ 0 = 0 /\ (Some 0 = None \/ Some 0 = Some 0))
    by (repeat split; right; reflexivity).
  split; [exact H |].
  exact (proj2 (proj1 (X10_frequentist_diff_raises_iff 0 3 true (Some 0))) H).
Defined.



(** ** Degrees of freedom *)


Lemma IZR_dof_denominator (m : Z) :
  IZR (m ^ 2 * (m - 1)) = IZR m ^ 2 * (IZR m - 1).
Proof.
  rewrite mult_IZR, minus_IZR. f_equal.
  replace (m ^ 2)%Z with (m * m)%Z by ring. rewrite mult_IZR. ring.
Qed.

Lemma dof_value (self : TTest.t) :
  (2 <= TestStatistic.n (TTest.stat_a self))%Z ->
  (2 <= TestStatistic.n (TTest.stat_b self))%Z ->
  0 < TestStatistic.variance (TTest.stat_a self) ->
  0 < TestStatistic.variance (TTest.stat_b self) ->
  let n_a := IZR (TestStatistic.n (TTest.stat_a self)) in
  let n_b := IZR (TestStatistic.n (TTest.stat_b self)) in
  let a := TestStatistic.variance (TTest.stat_a self) / n_a in
  let b := TestStatistic.variance (TTest.stat_b self) / n_b in
  TTest.dof self
  = Ok ((b + a) ^ 2 / (b ^ 2 / (n_b - 1) + a ^ 2 / (n_a - 1))).
Proof.
  intros Hna Hnb Ha Hb n_a n_b a b.
  assert (Pa : 2 <= n_a) by (now apply (IZR_le 2)).
  assert (Pb : 2 <= n_b) by (now apply (IZR_le 2)).
  unfold TTest.dof. cbv zeta. rewrite !IZR_dof_denominator.
  fold n_a n_b.
  set (var_a := TestStatistic.variance (TTest.stat_a self)) in *.
  set (var_b := TestStatistic.variance (TTest.stat_b self)) in *.
  assert (Qa : 0 < n_a ^ 2 * (n_a - 1)) by nra.
  assert (Qb : 0 < n_b ^ 2 * (n_b - 1)) by nra.
  assert (Ea : var_a ^ 2 / (n_a ^ 2 * (n_a - 1)) = a ^ 2 / (n_a - 1))
    by (unfold a; field; lra).
  assert (Eb : var_b ^ 2 / (n_b ^ 2 * (n_b - 1)) = b ^ 2 / (n_b - 1))
    by (unfold b; field; lra).
  assert (Da : 0 < a ^ 2 / (n_a - 1)).
  { rewrite <- Ea. apply Rdiv_lt_0_compat; nra. }
  assert (Db : 0 < b ^ 2 / (n_b - 1)).
  { rewrite <- Eb. apply Rdiv_lt_0_compat; nra. }
  rewrite !py_div_ok by lra. cbn [bind].
  rewrite Ea, Eb. rewrite py_div_ok by lra. reflexivity.
Qed.



(** X13: for two arms of the same size [n >= 2] and the same positive
    variance, the degrees of freedom are [2 * (n - 1)], those of the
    pooled test. *)
Theorem X13_dof_equal_arms :
  forall self : TTest.t,
    TestStatistic.n (TTest.stat_a self) = TestStatistic.n (TTest.stat_b self) ->
    TestStatistic.variance (TTest.stat_a self)
    = TestStatistic.variance (TTest.stat_b self) ->
    (2 <= TestStatistic.n (TTest.stat_a self))%Z ->
    0 < TestStatistic.variance (TTest.stat_a self) ->
    TTest.dof self
    = Ok (2 * (IZR (TestStatistic.n (TTest.stat_a self)) - 1)).
Proof.
  intros self En Ev Hn Hv.
  rewrite dof_value by (try rewrite <- En; try rewrite <- Ev; assumption).
  rewrite <- En, <- Ev.
  assert (Pn : 2 <= IZR (TestStatistic.n (TTest.stat_a self)))
    by (now apply (IZR_le 2)).
  f_equal. field. repeat split; nra.
Qed.

Lemma X13_dof_equal_arms_witness :
  (1000%Z = 1000%Z /\ 4 = 4 /\ (2 <= 1000)%Z /\ 0 < 4)
  /\ TTest.dof healthy_scaled_test = Ok (2 * (IZR 1000 - 1)).
Proof.
  assert (Hn : (2 <= 1000)%Z) by lia.
  assert (Hv : 0 < 4) by lra.
  split; [repeat split; assumption |].
  exact (X13_dof_equal_arms healthy_scaled_test eq_refl eq_refl Hn Hv).
Defined.

Lemma dof_single_unit (self : TTest.t) :
  TestStatistic.n (TTest.stat_a self) = 1%Z
  \/ TestStatistic.n (TTest.stat_b self) = 1%Z ->
  TTest.dof self = Raise ZeroDivisionError.
Proof.
  intros H. unfold TTest.dof. cbv zeta.
  set (n_a := TestStatistic.n (TTest.stat_a self)) in *.
  set (n_b := TestStatistic.n (TTest.stat_b self)) in *.
  destruct (Z.eq_dec n_b 0) as [-> | Nb]; [now rewrite py_div_zero |].
  rewrite (py_div_ok _ (IZR n_b)) by (now apply not_0_IZR). cbn [bind].
  destruct (Z.eq_dec n_a 0) as [-> | Na]; [now rewrite py_div_zero |].
  rewrite (py_div_ok _ (IZR n_a)) by (now apply not_0_IZR). cbn [bind].
  destruct (Z.eq_dec n_b 1) as [-> | Nb1]; [now rewrite py_div_zero |].
  assert (Hb : (n_b ^ 2 * (n_b - 1))%Z <> 0%Z) by nia.
  rewrite (py_div_ok _ (IZR (n_b ^ 2 * (n_b - 1))))
    by (now apply not_0_IZR).
  cbn [bind]. destruct H as [-> | ->]; [| contradiction].
  now rewrite py_div_zero.
Qed.

(** X14: the guards of [compute_result] do not cover an arm of a single
    unit: on an input that passes them, the three fixed-sample tests raise
    a [ZeroDivisionError], which comes from [dof]. *)
Theorem X14_single_unit_arm_raises :
  forall (S : Scipy) (self : TTest.t),
    TTest.kind self = TwoSided
    \/ TTest.kind self = OneSidedTreatmentGreater
    \/ TTest.kind self = OneSidedTreatmentLesser ->
    nondegenerate self ->
    TestStatistic.n (TTest.stat_a self) = 1%Z
    \/ TestStatistic.n (TTest.stat_b self) = 1%Z ->
    TTest.dof self = Raise ZeroDivisionError
    /\ TTest.compute_result self = Raise ZeroDivisionError.
Proof.
  intros S self Hk Hnd Hn.
  pose proof (dof_single_unit self Hn) as Hd.
  split; [exact Hd |].
  pose proof Hnd as (Hm & Hu & Ha & Hb).
  rewrite compute_result_nondegenerate by assumption.
  unfold TTest.unscaled_result, TTest.confidence_interval.
  rewrite point_estimate_value by assumption. cbn [bind].
  destruct Hk as [Hk | [Hk | Hk]]; now rewrite Hk, Hd.
Qed.

Lemma X14_single_unit_arm_raises_witness :
  (TTest.kind single_unit_test = TwoSided
   /\ nondegenerate single_unit_test
   /\ TestStatistic.n (TTest.stat_b single_unit_test) = 1%Z)
  /\ @TTest.compute_result point_mass single_unit_test
     = Raise ZeroDivisionError.
Proof.
  assert (Hnd : nondegenerate single_unit_test)
    by (unfold nondegenerate; cbn; repeat split; lra).
  split; [repeat split; solve [reflexivity | apply Hnd] |].
  exact (proj2 (X14_single_unit_arm_raises point_mass single_unit_test
                  (or_introl eq_refl) Hnd (or_intror eq_refl))).
Defined.

(** ** The one-sided and two-sided tests side by side *)

(** X15: on the same valid input the two one-sided p-values add up to 1. *)
Theorem X15_one_sided_p_values_complementary :
  forall (S : Scipy) (a b : TestStatistic.t) (cfg : FrequentistConfig.t),
    nondegenerate (OneSidedTreatmentGreaterTTest a b cfg) ->
    counts_at_least 2 (OneSidedTreatmentGreaterTTest a b cfg) ->
    exists greater lesser,
      TTest.p_value (OneSidedTreatmentGreaterTTest a b cfg) = Ok greater
      /\ TTest.p_value (OneSidedTreatmentLesserTTest a b cfg) = Ok lesser
      /\ greater + lesser = 1.
Proof.
  intros S a b cfg Hnd Hn.
  assert (Hn1 : counts_at_least 1 (OneSidedTreatmentGreaterTTest a b cfg))
    by (destruct Hn; split; lia).
  destruct (critical_value_defined _ Hnd Hn1) as (c & Hc).
  destruct (dof_positive _ Hnd Hn) as (d & Hd & _).
  exists (1 - t_cdf c d), (t_cdf c d). split; [| split; [| ring]].
  - unfold TTest.p_value. cbn [TTest.kind OneSidedTreatmentGreaterTTest
                                 TTest.init].
    now rewrite Hc, Hd.
  - change (TTest.critical_value (OneSidedTreatmentLesserTTest a b cfg) = Ok c)
      in Hc.
    change (TTest.dof (OneSidedTreatmentLesserTTest a b cfg) = Ok d) in Hd.
    unfold TTest.p_value. cbn [TTest.kind OneSidedTreatmentLesserTTest
                                 TTest.init].
    now rewrite Hc, Hd.
Qed.

Lemma healthy_arms_nondegenerate (k : variant) (cfg : FrequentistConfig.t) :
  nondegenerate (TTest.init k arm_a arm_b cfg).
Proof. unfold nondegenerate; cbn; repeat split; lra. Qed.

Lemma healthy_arms_counts (k : variant) (cfg : FrequentistConfig.t) :
  counts_at_least 2 (TTest.init k arm_a arm_b cfg).
Proof. unfold counts_at_least; cbn; lia. Qed.

Lemma X15_one_sided_p_values_complementary_witness :
  exists greater lesser,
    @TTest.p_value point_mass
      (OneSidedTreatmentGreaterTTest arm_a arm_b relative_config)
    = Ok greater
    /\ @TTest.p_value point_mass
         (OneSidedTreatmentLesserTTest arm_a arm_b relative_config)
       = Ok lesser
    /\ greater + lesser = 1.
Proof.
  exact (X15_one_sided_p_values_complementary point_mass arm_a arm_b
           relative_config
           (healthy_arms_nondegenerate OneSidedTreatmentGreater
              relative_config)
           (healthy_arms_counts OneSidedTreatmentGreater relative_config)).
Defined.






(** ** Swapping the arms *)

Lemma py_div_cases (x y : R) :
  (y = 0 /\ py_div x y = Raise ZeroDivisionError)
  \/ (y <> 0 /\ py_div x y = Ok (x / y)).
Proof.
  destruct (Req_dec_T y 0) as [-> | N].
  - left. split; [reflexivity | apply py_div_zero].
  - right. split; [exact N | now apply py_div_ok].
Qed.

(** X18: for an absolute or scaled difference, swapping the two arms
    negates the point estimate and leaves the pooled variance and the
    degrees of freedom as they are, exceptions included. *)
Theorem X18_swapped_arms :
  forall (k : variant) (a b : TestStatistic.t) (cfg : FrequentistConfig.t),
    FrequentistConfig.difference_type cfg <> Relative ->
    TTest.point_estimate (TTest.init k a b cfg)
    = Ok (TestStatistic.mean b - TestStatistic.mean a)
    /\ TTest.point_estimate (TTest.init k b a cfg)
       = Ok (- (TestStatistic.mean b - TestStatistic.mean a))
    /\ TTest.variance (TTest.init k b a cfg)
       = TTest.variance (TTest.init k a b cfg)
    /\ TTest.dof (TTest.init k b a cfg) = TTest.dof (TTest.init k a b cfg).
Proof.
  intros k a b cfg Hrel.
  assert (E : DifferenceType_eqb (FrequentistConfig.difference_type cfg)
                Relative = false)
    by (destruct (FrequentistConfig.difference_type cfg);
        [reflexivity | contradiction | reflexivity]).
  split; [| split; [| split]].
  - unfold TTest.point_estimate, frequentist_diff. cbn. now rewrite E.
  - unfold TTest.point_estimate, frequentist_diff. cbn. rewrite E.
    f_equal. ring.
  - unfold TTest.variance, frequentist_variance. cbn. rewrite E.
    destruct (py_div_cases (TestStatistic.variance a)
                (IZR (TestStatistic.n a))) as [(_ & ->) | (_ & ->)];
      destruct (py_div_cases (TestStatistic.variance b)
                  (IZR (TestStatistic.n b))) as [(_ & ->) | (_ & ->)];
      cbn [bind]; try reflexivity.
    f_equal. ring.
  - unfold TTest.dof. cbn [TTest.stat_a TTest.stat_b TTest.init]. cbv zeta.
    destruct (py_div_cases (TestStatistic.variance a)
                (IZR (TestStatistic.n a))) as [(_ & ->) | (_ & ->)];
      destruct (py_div_cases (TestStatistic.variance b)
                  (IZR (TestStatistic.n b))) as [(_ & ->) | (_ & ->)];
      cbn [bind]; try reflexivity.
    destruct (py_div_cases (TestStatistic.variance a ^ 2)
                (IZR (TestStatistic.n a ^ 2 * (TestStatistic.n a - 1))))
      as [(_ & ->) | (_ & ->)];
      destruct (py_div_cases (TestStatistic.variance b ^ 2)
                  (IZR (TestStatistic.n b ^ 2 * (TestStatistic.n b - 1))))
        as [(_ & ->) | (_ & ->)];
      cbn [bind]; try reflexivity.
    rewrite (Rplus_comm (TestStatistic.variance a / IZR (TestStatistic.n a))).
    rewrite (Rplus_comm (TestStatistic.variance a ^ 2 / _)).
    reflexivity.
Qed.

Lemma X18_swapped_arms_witness :
  FrequentistConfig.difference_type absolute_config <> Relative
  /\ TTest.point_estimate (TwoSidedTTest arm_b arm_a absolute_config)
     = Ok (- (TestStatistic.mean arm_b - TestStatistic.mean arm_a))
  /\ TTest.dof (TwoSidedTTest arm_b arm_a absolute_config)
     = TTest.dof (TwoSidedTTest arm_a arm_b absolute_config).
Proof.
  assert (H : FrequentistConfig.difference_type absolute_config <> Relative)
    by discriminate.
  split; [exact H |].
  destruct (X18_swapped_arms TwoSided arm_a arm_b absolute_config H)
    as (_ & Hpe & _ & Hd).
  split; [exact Hpe | exact Hd].
Defined.

(** ** The sequential test: interval and p-value together *)

Lemma exp_le_iff (x y : R) : exp x <= exp y <-> x <= y.
Proof.
  split; intros H.
  - destruct (Rle_lt_dec x y) as [L | G]; [exact L |].
    apply exp_increasing in G. lra.
  - destruct H as [H | ->]; [left; now apply exp_increasing | lra].
Qed.

Lemma sequential_p_value_value (S : Scipy) (self : TTest.t)
  (tuning v pe : R) :
  TTest.kind self = SequentialTwoSided tuning ->
  0 < TTest.alpha self < 1 -> 0 < tuning ->
  counts_at_least 1 self ->
  TTest.variance self = Ok v -> 0 < v ->
  TTest.point_estimate self = Ok pe ->
  let N := IZR (TestStatistic.n (TTest.stat_a self)
                + TestStatistic.n (TTest.stat_b self)) in
  let r := rho_spec (TTest.alpha self) tuning in
  let T := N * r ^ 2 + 1 in
  TTest.p_value self
  = Ok (py_min
          (1 / (exp (r ^ 2 * ((pe - TTest.test_value self) ^ 2 * N / v)
                     / (2 * T))
                / sqrt T))
          1).
Proof.
  intros Hk Ha Ht (Hna & Hnb) Hv Pv Hpe N r T.
  assert (HN : 2 <= N) by (apply (IZR_le 2); lia).
  pose proof (rho_spec_positive _ _ Ha Ht) as Hr. fold r in Hr.
  assert (HT : 1 <= T) by (unfold T; nra).
  assert (Hs : 0 < sqrt T) by (apply sqrt_lt_R0; lra).
  unfold TTest.p_value. rewrite Hk, Hpe, Hv, rho_value by assumption.
  cbn [bind]. fold N r T.
  set (E := r ^ 2 * ((pe - TTest.test_value self) ^ 2 * N / v) / (2 * T)).
  assert (He : 0 < exp E / sqrt T)
    by (apply Rdiv_lt_0_compat; [apply exp_pos | exact Hs]).
  checked. fold E. checked. reflexivity.
Qed.

Lemma width_spec_square (v N alpha tuning : R) :
  0 < v -> 2 <= N -> 0 < alpha < 1 -> 0 < tuning ->
  let r := rho_spec alpha tuning in
  let T := N * r ^ 2 + 1 in
  0 < width_spec v N alpha tuning
  /\ width_spec v N alpha tuning ^ 2
     = 2 * T * v / (r ^ 2 * N) * ln (sqrt T / alpha)
  /\ 0 < ln (sqrt T / alpha).
Proof.
  intros Pv HN Ha Ht r T.
  pose proof (rho_spec_positive _ _ Ha Ht) as Hr. fold r in Hr.
  assert (HT : 1 <= T) by (unfold T; nra).
  assert (Hm : 1 <= sqrt T) by (now apply sqrt_ge_1).
  assert (Hq : 1 < sqrt T / alpha).
  { apply (Rmult_lt_reg_r alpha); [lra |].
    unfold Rdiv. rewrite Rmult_assoc, Rinv_l by lra. lra. }
  assert (Hl : 0 < ln (sqrt T / alpha)) by (now apply ln_pos).
  assert (Hd : 0 < (N * r) ^ 2) by (apply pow2_pos; nra).
  assert (Hf : 0 < 2 * T * ln (sqrt T / alpha) / (N * r) ^ 2).
  { apply Rdiv_lt_0_compat; [| assumption].
    apply Rmult_lt_0_compat; lra. }
  assert (Hvn : 0 < v * N) by nra.
  unfold width_spec. fold r T.
  split; [| split; [| exact Hl]].
  - apply Rmult_lt_0_compat; apply sqrt_lt_R0; assumption.
  - rewrite Rpow_mult_distr, !pow2_sqrt by lra. field. lra.
Qed.

Lemma sequential_duality_real (v N alpha tuning delta : R) :
  0 < v -> 2 <= N -> 0 < alpha < 1 -> 0 < tuning ->
  let r := rho_spec alpha tuning in
  let T := N * r ^ 2 + 1 in
  delta ^ 2 <= width_spec v N alpha tuning ^ 2
  <-> alpha
      <= py_min (1 / (exp (r ^ 2 * (delta ^ 2 * N / v) / (2 * T)) / sqrt T))
           1.
Proof.
  intros Pv HN Ha Ht r T.
  pose proof (rho_spec_positive _ _ Ha Ht) as Hr. fold r in Hr.
  destruct (width_spec_square v N alpha tuning Pv HN Ha Ht)
    as (_ & EW & Hl). fold r T in EW, Hl.
  assert (HT : 1 <= T) by (unfold T; nra).
  assert (Hs : 0 < sqrt T) by (apply sqrt_lt_R0; lra).
  set (E := r ^ 2 * (delta ^ 2 * N / v) / (2 * T)).
  set (L := ln (sqrt T / alpha)) in *.
  set (c := 2 * T * v / (r ^ 2 * N)).
  assert (Hc : 0 < c) by (unfold c; apply Rdiv_lt_0_compat; nra).
  assert (Ec : delta ^ 2 = c * E) by (unfold c, E; field; lra).
  assert (Hq : 1 / (exp E / sqrt T) = sqrt T / exp E).
  { field. split; [| lra]. pose proof (exp_pos E). lra. }
  rewrite EW, Hq. fold c. rewrite Ec.
  assert (Step1 : c * E <= c * L <-> E <= L).
  { split; intros H; [| now apply Rmult_le_compat_l; [lra |]].
    apply (Rmult_le_reg_l c); assumption. }
  assert (Step2 : E <= L <-> alpha * exp E <= sqrt T).
  { rewrite <- exp_le_iff. unfold L. rewrite exp_ln.
    2:{ apply Rdiv_lt_0_compat; lra. }
    pose proof (exp_pos E) as Pe. split; intros H.
    - apply (Rmult_le_compat_l alpha) in H; [| lra].
      replace (alpha * (sqrt T / alpha)) with (sqrt T) in H
        by (field; lra).
      exact H.
    - apply (Rmult_le_reg_l alpha); [lra |].
      replace (alpha * (sqrt T / alpha)) with (sqrt T) by (field; lra).
      exact H. }
  assert (Step3 : alpha * exp E <= sqrt T <-> alpha <= sqrt T / exp E).
  { pose proof (exp_pos E) as Pe. split; intros H.
    - apply (Rmult_le_reg_r (exp E)); [exact Pe |].
      replace (sqrt T / exp E * exp E) with (sqrt T) by (field; lra).
      exact H.
    - apply (Rmult_le_compat_r (exp E)) in H; [| lra].
      replace (sqrt T / exp E * exp E) with (sqrt T) in H by (field; lra).
      exact H. }
  assert (Step4 : alpha <= sqrt T / exp E
                  <-> alpha <= py_min (sqrt T / exp E) 1).
  { unfold py_min. destruct (Rltb 1 (sqrt T / exp E)) eqn:Eq.
    - apply Rltb_lt in Eq. split; intros _; lra.
    - tauto. }
  tauto.
Qed.

Lemma sequential_parts (self : TTest.t) (tuning : R) :
  nondegenerate self -> counts_at_least 1 self ->
  exists v pe,
    TTest.variance self = Ok v /\ 0 < v
    /\ TTest.point_estimate self = Ok pe
    /\ 2 <= IZR (TestStatistic.n (TTest.stat_a self)
                 + TestStatistic.n (TTest.stat_b self)).
Proof.
  intros Hnd Hn.
  destruct (variance_positive self Hnd Hn) as (v & Hv & Pv).
  pose proof Hnd as (_ & Hu & _). destruct Hn as (Hna & Hnb).
  exists v. eexists. repeat split; try eassumption.
  - now apply point_estimate_value.
  - apply (IZR_le 2). lia.
Qed.

(** X19: on a valid input the sequential interval is centred on the point
    estimate and has a positive width: the point estimate lies strictly
    inside it. *)
Theorem X19_sequential_interval_contains_estimate :
  forall (S : Scipy) (self : TTest.t) (tuning : R),
    TTest.kind self = SequentialTwoSided tuning ->
    nondegenerate self -> counts_at_least 1 self ->
    0 < TTest.alpha self < 1 -> 0 < tuning ->
    exists pe lo hi,
      TTest.point_estimate self = Ok pe
      /\ TTest.confidence_interval self = Ok (Fin lo, Fin hi)
      /\ lo < pe < hi
      /\ lo + hi = 2 * pe.
Proof.
  intros S self tuning Hk Hnd Hn Ha Ht.
  destruct (sequential_parts self tuning Hnd Hn)
    as (v & pe & Hv & Pv & Hpe & HN).
  destruct (width_spec_square v _ _ tuning Pv HN Ha Ht) as (HW & _).
  eexists pe, _, _. split; [exact Hpe | split].
  - apply (sequential_interval_value S self tuning v pe);
      try assumption. lra.
  - cbv zeta. split; [lra | ring].
Qed.

Lemma X19_sequential_interval_contains_estimate_witness :
  exists pe lo hi,
    TTest.point_estimate healthy_sequential_test = Ok pe
    /\ @TTest.confidence_interval point_mass healthy_sequential_test
       = Ok (Fin lo, Fin hi)
    /\ lo < pe < hi
    /\ lo + hi = 2 * pe.
Proof.
  assert (Ht : 0 < 5000) by lra.
  exact (X19_sequential_interval_contains_estimate point_mass
           healthy_sequential_test 5000 eq_refl
           healthy_sequential_nondegenerate healthy_sequential_counts
           healthy_sequential_alpha Ht).
Defined.



(** X21: on a valid input the sequential interval and the sequential
    p-value agree: the test value lies in the interval exactly when the
    p-value is at least [alpha]. *)
Theorem X21_sequential_interval_p_value_duality :
  forall (S : Scipy) (self : TTest.t) (tuning : R),
    TTest.kind self = SequentialTwoSided tuning ->
    nondegenerate self -> counts_at_least 1 self ->
    0 < TTest.alpha self < 1 -> 0 < tuning ->
    exists lo hi p,
      TTest.confidence_interval self = Ok (Fin lo, Fin hi)
      /\ TTest.p_value self = Ok p
      /\ (lo <= TTest.test_value self <= hi <-> TTest.alpha self <= p).
Proof.
  intros S self tuning Hk Hnd Hn Ha Ht.
  destruct (sequential_parts self tuning Hnd Hn)
    as (v & pe & Hv & Pv & Hpe & HN).
  set (N := IZR (TestStatistic.n (TTest.stat_a self)
                 + TestStatistic.n (TTest.stat_b self))) in *.
  destruct (width_spec_square v N _ tuning Pv HN Ha Ht) as (HW & _).
  pose proof (sequential_duality_real v N (TTest.alpha self) tuning
                (pe - TTest.test_value self) Pv HN Ha Ht) as Hdual.
  cbv zeta in Hdual.
  set (W := width_spec v N (TTest.alpha self) tuning) in *.
  exists (pe - W), (pe + W). eexists.
  split; [| split].
  - apply (sequential_interval_value S self tuning v pe);
      try assumption. lra.
  - now apply (sequential_p_value_value S self tuning v pe).
  - cbv zeta. fold N. rewrite <- Hdual.
    set (delta := pe - TTest.test_value self). split.
    + intros (H1 & H2).
      assert (A : 0 <= (W - delta) * (W + delta))
        by (apply Rmult_le_pos; unfold delta; lra).
      nra.
    + intros H.
      assert (A : - W <= delta <= W).
      { split.
        - destruct (Rle_lt_dec (- W) delta) as [L | G]; [exact L | nra].
        - destruct (Rle_lt_dec delta W) as [L | G]; [exact L | nra]. }
      unfold delta in A. lra.
Qed.

Lemma X21_sequential_interval_p_value_duality_witness :
  exists lo hi p,
    @TTest.confidence_interval point_mass healthy_sequential_test
    = Ok (Fin lo, Fin hi)
    /\ @TTest.p_value point_mass healthy_sequential_test = Ok p
    /\ (lo <= TTest.test_value healthy_sequential_test <= hi
        <-> TTest.alpha healthy_sequential_test <= p).
Proof.
  assert (Ht : 0 < 5000) by lra.
  exact (X21_sequential_interval_p_value_duality point_mass
           healthy_sequential_test 5000 eq_refl
           healthy_sequential_nondegenerate healthy_sequential_counts
           healthy_sequential_alpha Ht).
Defined.

(** ** What compute_result returns *)

Lemma compute_result_cases (S : Scipy) (self : TTest.t) :
  (~ nondegenerate self
   /\ exists m,
       TTest.compute_result self = Ok (TTest._default_output (Some m)))
  \/ (nondegenerate self
      /\ TTest.compute_result self
         = (result <- TTest.unscaled_result self ;;
            if TTest.scaled self then
              TTest.scale_result self result (TTest.traffic_proportion_b self)
                (TTest.phase_length_days self)
            else Ok result)).
Proof.
  unfold TTest.compute_result, nondegenerate.
  destruct (Reqb (TestStatistic.mean (TTest.stat_a self)) 0) eqn:Em.
  { left. apply Reqb_eq in Em. split; [tauto | now eexists]. }
  destruct (Reqb (TestStatistic.unadjusted_mean (TTest.stat_a self)) 0)
    eqn:Eu.
  { left. apply Reqb_eq in Eu. split; [tauto | now eexists]. }
  destruct (TTest._has_zero_variance self) eqn:Ev.
  { left. apply has_zero_variance_iff in Ev.
    split; [intros (_ & _ & Ha & Hb); lra | now eexists]. }
  right. apply Reqb_neq in Em, Eu. apply has_zero_variance_false in Ev.
  split; [tauto | reflexivity].
Qed.

Lemma unscaled_result_shape (S : Scipy) (self : TTest.t)
  (r : FrequentistTestResult.t) :
  TTest.unscaled_result self = Ok r ->
  FrequentistTestResult.error_message r = None
  /\ Uplift.dist (FrequentistTestResult.uplift r) = "normal"%string
  /\ Uplift.mean (FrequentistTestResult.uplift r)
     = FrequentistTestResult.expected r
  /\ TTest.point_estimate self = Ok (FrequentistTestResult.expected r)
  /\ TTest.p_value self = Ok (FrequentistTestResult.p_value r)
  /\ TTest.confidence_interval self = Ok (FrequentistTestResult.ci r).
Proof.
  unfold TTest.unscaled_result. intros H.
  apply bind_ok_inv in H. destruct H as (pe & Hpe & H).
  apply bind_ok_inv in H. destruct H as (ci & Hci & H).
  apply bind_ok_inv in H. destruct H as (p & Hp & H).
  apply bind_ok_inv in H. destruct H as (v & _ & H).
  apply bind_ok_inv in H. destruct H as (s & _ & H).
  injection H as <-. cbn. repeat split; assumption.
Qed.

Lemma scale_result_cases (self : TTest.t) (r0 r : FrequentistTestResult.t)
  (p d : R) :
  TTest.scale_result self r0 p d = Ok r ->
  (p = 0 /\ r = TTest._default_output (Some ZERO_SCALED_VARIATION_MESSAGE))
  \/ (p <> 0 /\ d <> 0
      /\ r = scaled_by
               {| FrequentistTestResult.expected :=
                    FrequentistTestResult.expected r0;
                  FrequentistTestResult.ci := FrequentistTestResult.ci r0;
                  FrequentistTestResult.p_value :=
                    FrequentistTestResult.p_value r0;
                  FrequentistTestResult.uplift :=
                    FrequentistTestResult.uplift r0;
                  FrequentistTestResult.error_message := None |}
               (IZR (TestStatistic.n (TTest.stat_b self)) / p / d)).
Proof.
  intros H. destruct (Req_dec_T p 0) as [-> | Hp].
  - left. rewrite scale_result_zero_traffic in H. now injection H as <-.
  - right. destruct (Req_dec_T d 0) as [-> | Hd].
    + rewrite scale_result_zero_days in H by assumption. discriminate H.
    + rewrite scale_result_scaled in H by assumption. now injection H as <-.
Qed.

(** X22: a result returned by [compute_result] carries no error message
    exactly when the input passes the three guards and, for the scaled
    difference type, the traffic proportion is not zero. *)
Theorem X22_error_message_iff_degenerate :
  forall (S : Scipy) (self : TTest.t) (r : FrequentistTestResult.t),
    TTest.compute_result self = Ok r ->
    (FrequentistTestResult.error_message r = None
     <-> nondegenerate self
         /\ (TTest.scaled self = true -> TTest.traffic_proportion_b self <> 0)).
Proof.
  intros S self r Hr.
  destruct (compute_result_cases S self) as [(Hnd & m & E) | (Hnd & E)];
    rewrite E in Hr.
  - injection Hr as <-. cbn. split; [discriminate | tauto].
  - apply bind_ok_inv in Hr. destruct Hr as (r0 & H0 & Hr).
    apply unscaled_result_shape in H0. destruct H0 as (Hm & _).
    destruct (TTest.scaled self).
    + apply scale_result_cases in Hr.
      destruct Hr as [(Hp & ->) | (Hp & Hd & ->)]; cbn.
      * split; [discriminate | intros (_ & H); now specialize (H eq_refl)].
      * split; [intros _; split; [exact Hnd | now intros _] | reflexivity].
    + injection Hr as <-. split; [intros _ | intros _; exact Hm].
      split; [exact Hnd | discriminate].
Qed.

Lemma X22_error_message_iff_degenerate_witness :
  exists r,
    @TTest.compute_result point_mass zero_baseline_test = Ok r
    /\ (FrequentistTestResult.error_message r = None
        <-> nondegenerate zero_baseline_test
            /\ (TTest.scaled zero_baseline_test = true ->
                TTest.traffic_proportion_b zero_baseline_test <> 0)).
Proof.
  assert (E : @TTest.compute_result point_mass zero_baseline_test
              = Ok (TTest._default_output
                      (Some BASELINE_VARIATION_ZERO_MESSAGE)))
    by (apply compute_result_zero_baseline; left; reflexivity).
  eexists. split; [exact E |].
  exact (X22_error_message_iff_degenerate point_mass zero_baseline_test _ E).
Defined.

(** X23: every result returned by [compute_result], default, plain or
    scaled, describes the uplift as a normal distribution whose mean is the
    result's [expected]. *)
Theorem X23_uplift_mean_is_expected :
  forall (S : Scipy) (self : TTest.t) (r : FrequentistTestResult.t),
    TTest.compute_result self = Ok r ->
    Uplift.dist (FrequentistTestResult.uplift r) = "normal"%string
    /\ Uplift.mean (FrequentistTestResult.uplift r)
       = FrequentistTestResult.expected r.
Proof.
  intros S self r Hr.
  destruct (compute_result_cases S self) as [(Hnd & m & E) | (Hnd & E)];
    rewrite E in Hr.
  - injection Hr as <-. cbn. split; reflexivity.
  - apply bind_ok_inv in Hr. destruct Hr as (r0 & H0 & Hr).
    apply unscaled_result_shape in H0. destruct H0 as (_ & Hd & Hm & _).
    destruct (TTest.scaled self).
    + apply scale_result_cases in Hr.
      destruct Hr as [(Hp & ->) | (Hp & Hd' & ->)]; cbn.
      * split; reflexivity.
      * split; [exact Hd | now rewrite Hm].
    + injection Hr as <-. split; assumption.
Qed.

Lemma X23_uplift_mean_is_expected_witness :
  exists r,
    @TTest.compute_result point_mass zero_baseline_test = Ok r
    /\ Uplift.dist (FrequentistTestResult.uplift r) = "normal"%string
    /\ Uplift.mean (FrequentistTestResult.uplift r)
       = FrequentistTestResult.expected r.
Proof.
  assert (E : @TTest.compute_result point_mass zero_baseline_test
              = Ok (TTest._default_output
                      (Some BASELINE_VARIATION_ZERO_MESSAGE)))
    by (apply compute_result_zero_baseline; left; reflexivity).
  eexists. split; [exact E |].
  exact (X23_uplift_mean_is_expected point_mass zero_baseline_test _ E).
Defined.

(** X24: on an input that passes the guards, the result for the scaled
    difference type is the result for the absolute difference type passed
    through [scale_result]; both raise together. *)
Theorem X24_scaled_is_absolute_then_scaled :
  forall (S : Scipy) (k : variant) (a b : TestStatistic.t)
         (p d al tv : R),
    let scaled_test :=
      TTest.init k a b (FrequentistConfig.Build Scaled p d al tv) in
    let absolute_test :=
      TTest.init k a b (FrequentistConfig.Build Absolute p d al tv) in
    nondegenerate absolute_test ->
    TTest.compute_result scaled_test
    = (r <- TTest.compute_result absolute_test ;;
       TTest.scale_result scaled_test r p d).
Proof.
  intros S k a b p d al tv scaled_test absolute_test Hnd.
  pose proof Hnd as (Hm & Hu & Ha & Hb).
  rewrite (compute_result_nondegenerate S scaled_test) by assumption.
  rewrite (compute_result_nondegenerate S absolute_test) by assumption.
  unfold scaled_test, absolute_test.
  rewrite unscaled_result_scaled_is_absolute.
  cbn [TTest.scaled TTest.init DifferenceType_eqb
       TTest.traffic_proportion_b TTest.phase_length_days].
  destruct (TTest.unscaled_result _); reflexivity.
Qed.

Lemma X24_scaled_is_absolute_then_scaled_witness :
  nondegenerate
    (TTest.init TwoSided arm_a arm_b
       (FrequentistConfig.Build Absolute (1 / 2) 10 (5 / 100) 0))
  /\ @TTest.compute_result point_mass
       (TTest.init TwoSided arm_a arm_b
          (FrequentistConfig.Build Scaled (1 / 2) 10 (5 / 100) 0))
     = (r <- @TTest.compute_result point_mass
               (TTest.init TwoSided arm_a arm_b
                  (FrequentistConfig.Build Absolute (1 / 2) 10 (5 / 100) 0)) ;;
        TTest.scale_result
          (TTest.init TwoSided arm_a arm_b
             (FrequentistConfig.Build Scaled (1 / 2) 10 (5 / 100) 0))
          r (1 / 2) 10).
Proof.
  pose proof (healthy_arms_nondegenerate TwoSided
                (FrequentistConfig.Build Absolute (1 / 2) 10 (5 / 100) 0))
    as Hnd.
  split; [exact Hnd |].
  exact (X24_scaled_is_absolute_then_scaled point_mass TwoSided arm_a arm_b
           (1 / 2) 10 (5 / 100) 0 Hnd).
Defined.





(** X26: with a positive sample size, traffic proportion and phase length
    the adjustment is positive and [scale_result] keeps the shape of the
    interval: ordered finite ends stay ordered, and an infinite end of a
    one-sided interval stays the same infinity. *)
Theorem X26_scale_result_keeps_interval_shape :
  forall (self : TTest.t) (r : FrequentistTestResult.t) (p d : R),
    (0 < TestStatistic.n (TTest.stat_b self))%Z -> 0 < p -> 0 < d ->
    exists res,
      TTest.scale_result self r p d = Ok res
      /\ (forall lo hi,
             FrequentistTestResult.ci r = (Fin lo, Fin hi) -> lo <= hi ->
             exists lo' hi',
               FrequentistTestResult.ci res = (Fin lo', Fin hi')
               /\ lo' <= hi')
      /\ (snd (FrequentistTestResult.ci r) = PosInf ->
          snd (FrequentistTestResult.ci res) = PosInf)
      /\ (fst (FrequentistTestResult.ci r) = NegInf ->
          fst (FrequentistTestResult.ci res) = NegInf).
Proof.
  intros self r p d Hn Hp Hd.
  assert (Pn : 0 < IZR (TestStatistic.n (TTest.stat_b self)))
    by (now apply (IZR_lt 0)).
  set (adj := IZR (TestStatistic.n (TTest.stat_b self)) / p / d).
  assert (Padj : 0 < adj)
    by (unfold adj; repeat apply Rdiv_lt_0_compat; assumption).
  assert (T : Rltb 0 adj = true) by (now apply Rltb_lt).
  eexists. split; [apply scale_result_scaled; lra |].
  cbn [scaled_by FrequentistTestResult.ci fst snd]. fold adj.
  split; [| split].
  - intros lo hi -> Hle. cbn [fst snd ext_mul].
    exists (lo * adj), (hi * adj). split; [reflexivity | nra].
  - intros ->. cbn [ext_mul]. now rewrite T.
  - intros ->. cbn [ext_mul]. now rewrite T.
Qed.

Lemma X26_scale_result_keeps_interval_shape_witness :
  ((0 < TestStatistic.n (TTest.stat_b healthy_scaled_test))%Z
   /\ 0 < 1 / 2 /\ 0 < 10)
  /\ exists res,
      TTest.scale_result healthy_scaled_test sample_result (1 / 2) 10
      = Ok res
      /\ exists lo' hi',
          FrequentistTestResult.ci res = (Fin lo', Fin hi') /\ lo' <= hi'.
Proof.
  assert (Hn : (0 < TestStatistic.n (TTest.stat_b healthy_scaled_test))%Z)
    by (cbn; lia).
  assert (Hp : 0 < 1 / 2) by lra.
  assert (Hd : 0 < 10) by lra.
  assert (Hle : 1 / 100 <= 3 / 100) by lra.
  split; [repeat split; assumption |].
  destruct (X26_scale_result_keeps_interval_shape healthy_scaled_test
              sample_result (1 / 2) 10 Hn Hp Hd)
    as (res & Hres & Hfin & _).
  exists res. split; [exact Hres |].
  exact (Hfin (1 / 100) (3 / 100) eq_refl Hle).
Defined.
